(** * Shallow embedding of [flask_caching.contrib.filesystemcachemsgspec]

    The class [FileSystemCacheMsgspec] stores one file per key in a single
    cache directory.  The directory is modelled as the ordered list that
    [os.listdir] returns (name, file); names are the base names inside
    [self._path] (the [os.path.join] with the fixed directory is left implicit,
    so [_get_filename] returns the hex digest and [_list_dir] the listed names).
    Python exceptions are the [Exc] outcome of a state/exception monad: a
    raised exception keeps the file-system effects already performed, as in
    Python.  [time()] reads the [clock] of the state (a rational number of
    seconds, since it is a float).  Every mutation of the directory appends the
    resulting listing to [trace], so that the states another process could
    observe in between the system calls of one operation can be stated. *)

From Stdlib Require Import String Ascii List ZArith QArith Qround Bool Lia Lqa.
#[local] Set Warnings "-register-all".
Import ListNotations.
Open Scope string_scope.

(** ** Python values that go through msgpack *)

Inductive obj : Type :=
| ONone
| OInt (z : Z)
| OStr (s : string)
| OList (l : list obj)
| OObject (tag : string).
(** [OObject] is an instance of a user class: msgspec cannot encode it. *)

(** Python exceptions that the modelled code can raise. *)
Inductive exn : Type :=
| FileNotFoundError
| PermissionError
| EncodeError        (* msgspec.msgpack.encode: unsupported type / int overflow *)
| DecodeError        (* msgspec.msgpack.decode on bytes that are no msgpack *)
| ZlibError          (* zlib.decompress on bytes that are no zlib stream *)
| TypeError
| ValueError
| RecursionError.

(** [except (IOError, OSError)]: FileNotFoundError and PermissionError are
    subclasses of OSError. *)
Definition is_oserror (e : exn) : bool :=
  match e with
  | FileNotFoundError | PermissionError => true
  | _ => false
  end.

(** ** Bytes on disk

    The codecs are external collaborators: a byte string is either the
    msgpack encoding of a value, a zlib stream wrapping other bytes, or bytes
    that are neither (an empty file just opened with "wb", a truncated write). *)
Inductive blob : Type :=
| Packed (o : obj)
| Zipped (b : blob)
| Partial.

Record file : Type := mkfile {
  contents : blob;
  undeletable : bool   (* os.remove raises PermissionError on it *)
}.

Definition dir := list (string * file).

Record state : Type := mkstate {
  files : dir;
  clock : Q;
  trace : list dir
}.

(** ** The monad *)

Inductive res (A : Type) : Type :=
| Ok (a : A)
| Exc (e : exn).
Arguments Ok {A} a.
Arguments Exc {A} e.

Definition M (A : Type) : Type := state -> res A * state.

Definition ret {A} (a : A) : M A := fun s => (Ok a, s).
Definition raise {A} (e : exn) : M A := fun s => (Exc e, s).
Definition bind {A B} (m : M A) (k : A -> M B) : M B :=
  fun s => match m s with
           | (Ok a, s') => k a s'
           | (Exc e, s') => (Exc e, s')
           end.
(** [try: m except: h] *)
Definition catch {A} (m : M A) (h : exn -> M A) : M A :=
  fun s => match m s with
           | (Ok a, s') => (Ok a, s')
           | (Exc e, s') => h e s'
           end.
(** [try: m ... except ...] when the handler needs to know whether [m] raised. *)
Definition attempt {A} (m : M A) : M (res A) :=
  fun s => let (r, s') := m s in (Ok r, s').

Notation "x <- m ;; k" := (bind m (fun x => k))
  (at level 61, m at next level, right associativity).
Notation "m ;;; k" := (bind m (fun _ => k))
  (at level 61, right associativity).

Definition time : M Q := fun s => (Ok (clock s), s).

(** ** Primitive file-system calls *)

Fixpoint lookup (n : string) (d : dir) : option file :=
  match d with
  | [] => None
  | (m, f) :: d' => if String.eqb n m then Some f else lookup n d'
  end.

Fixpoint remove_name (n : string) (d : dir) : dir :=
  match d with
  | [] => []
  | (m, f) :: d' => if String.eqb n m then remove_name n d' else (m, f) :: remove_name n d'
  end.

(** Replace the file named [n] in place, or add it at the end of the listing. *)
Fixpoint put (n : string) (f : file) (d : dir) : dir :=
  match d with
  | [] => [(n, f)]
  | (m, g) :: d' => if String.eqb n m then (n, f) :: d' else (m, g) :: put n f d'
  end.

Definition set_files (d : dir) : M unit :=
  fun s => (Ok tt, mkstate d (clock s) (trace s ++ [d])).

Definition get_files : M dir := fun s => (Ok (files s), s).

(** [open(n, "rb").read()] *)
Definition fs_read (n : string) : M blob :=
  d <- get_files ;;
  match lookup n d with
  | Some f => ret (contents f)
  | None => raise FileNotFoundError
  end.

(** [os.path.exists(n)] *)
Definition fs_exists (n : string) : M bool :=
  d <- get_files ;;
  ret (match lookup n d with Some _ => true | None => false end).

(** [with open(n, "wb") as f: f.write(b)]: the file is created (or truncated)
    empty, then receives its bytes: two observable states. *)
Definition fs_write_file (n : string) (b : blob) : M unit :=
  d <- get_files ;;
  let u := match lookup n d with Some f => undeletable f | None => false end in
  set_files (put n (mkfile Partial u) d) ;;;
  d' <- get_files ;;
  set_files (put n (mkfile b u) d').

(** [os.remove(n)] *)
Definition fs_remove (n : string) : M unit :=
  d <- get_files ;;
  match lookup n d with
  | None => raise FileNotFoundError
  | Some f => if undeletable f then raise PermissionError
              else set_files (remove_name n d)
  end.

(** [os.replace(src, dst)]: one atomic rename; the renamed file keeps the
    place of [src] in the listing. *)
Fixpoint rename (src dst : string) (d : dir) : dir :=
  match d with
  | [] => []
  | (m, f) :: d' => if String.eqb src m then (dst, f) :: d' else (m, f) :: rename src dst d'
  end.

Definition fs_replace (src dst : string) : M unit :=
  d <- get_files ;;
  match lookup src d, lookup dst d with
  | None, _ => raise FileNotFoundError
  | Some _, Some g => if undeletable g then raise PermissionError
                      else set_files (rename src dst (remove_name dst d))
  | Some _, None => set_files (rename src dst d)
  end.

(** [os.listdir(self._path)] *)
Definition fs_listdir : M (list string) :=
  d <- get_files ;; ret (map fst d).

(** ** The cache object *)

(** Constructor arguments of [FileSystemCacheMsgspec] (except [cache_dir],
    which is the implicit directory of the model).  [_hash_method] maps the
    key (its UTF-8 encoding) to the digest whose [hexdigest()] names the file;
    [_mode], [ignore_errors] and [compress_level] are stored by the source but
    do not change any result. *)
Record cache : Type := mkcache {
  _threshold : Z;
  default_timeout : Q;
  _mode : Z;
  _hash_method : string -> list Byte.byte;
  ignore_errors : bool;
  compress : bool;
  compress_level : Z
}.

Definition _fs_transaction_suffix : string := ".__wz_cache".
Definition _fs_count_file : string := "__wz_cache_count".

Definition hex_digit (n : N) : ascii :=
  if (n <? 10)%N then ascii_of_N (48 + n) else ascii_of_N (87 + n).

(** [hashlib ... .hexdigest()]: two lower-case hex digits per byte. *)
Fixpoint hexdigest (d : list Byte.byte) : string :=
  match d with
  | [] => EmptyString
  | b :: d' =>
      let n := Byte.to_N b in
      String (hex_digit (N.div n 16)) (String (hex_digit (N.modulo n 16)) (hexdigest d'))
  end.

(** [str.endswith] *)
Definition endswith (s suf : string) : bool :=
  let n := String.length s in
  let m := String.length suf in
  (m <=? n)%nat && String.eqb (substring (n - m) m s) suf.

(** ** Python operators used on decoded values *)

(** Truth value of an object ([x or y]). *)
Definition truthy (o : obj) : bool :=
  match o with
  | ONone => false
  | OInt z => negb (z =? 0)%Z
  | OStr s => negb (String.eqb s "")
  | OList l => match l with [] => false | _ => true end
  | OObject _ => true
  end.

Definition py_or (a b : obj) : obj := if truthy a then a else b.

(** [o + d] for an int [d] *)
Definition py_add_int (o : obj) (d : Z) : M Z :=
  match o with
  | OInt z => ret (z + d)%Z
  | _ => raise TypeError
  end.

(** [o > t] for an int [t] *)
Definition py_gt_int (o : obj) (t : Z) : M bool :=
  match o with
  | OInt z => ret (t <? z)%Z
  | _ => raise TypeError
  end.

(** [int(q)] on a float: truncation toward zero. *)
Definition py_int (q : Q) : Z :=
  if Qle_bool 0 q then Qfloor q else (- Qfloor (- q))%Z.

(** [a, b = o] *)
Definition unpack2 (o : obj) : M (obj * obj) :=
  match o with
  | OList [a; b] => ret (a, b)
  | OList _ => raise ValueError
  | OStr (String x (String y EmptyString)) => ret (OStr (String x EmptyString), OStr (String y EmptyString))
  | OStr _ => raise ValueError
  | _ => raise TypeError
  end.

(** ** Serialization helpers *)

(** Values [msgspec.msgpack.encode] accepts: ints must fit in 64 bits. *)
Fixpoint msgpack_encodable (o : obj) : bool :=
  match o with
  | ONone => true
  | OInt z => (- 2 ^ 63 <=? z)%Z && (z <? 2 ^ 64)%Z
  | OStr _ => true
  | OList l => forallb msgpack_encodable l
  | OObject _ => false
  end.

Section Cache.
Variable self : cache.

Definition _serialize (o : obj) : M blob :=
  if msgpack_encodable o then
    let data := Packed o in
    ret (if compress self then Zipped data else data)
  else raise EncodeError.

(** [data is None] cannot occur: [f.read()] returns bytes. *)
Definition _deserialize (data : blob) : M obj :=
  data' <- (if compress self then
              match data with Zipped b => ret b | _ => raise ZlibError end
            else ret data) ;;
  match data' with
  | Packed o => ret o
  | _ => raise DecodeError
  end.

(** Modelled from the spec: [BaseCache._normalize_timeout] (in
    [flask_caching.backends.base], not under src/): a missing timeout takes
    the configured default TTL. *)
Definition base_normalize_timeout (timeout : option Q) : Q :=
  match timeout with
  | None => default_timeout self
  | Some t => t
  end.

Definition _normalize_timeout (timeout : option Q) : M Z :=
  let t := base_normalize_timeout timeout in
  if Qeq_bool t 0 then ret (py_int t)
  else now <- time ;; ret (py_int (now + t)).

Definition _get_filename (key : string) : string :=
  hexdigest (_hash_method self key).

Definition _list_dir : M (list string) :=
  let mgmt_files := [_get_filename _fs_count_file] in
  names <- fs_listdir ;;
  ret (filter (fun fn => negb (endswith fn _fs_transaction_suffix)
                         && negb (existsb (String.eqb fn) mgmt_files)) names).

(** [expires != 0 and expires < time()] in [get] and [has] *)
Definition expired_lt (expires : obj) (now : Q) : M bool :=
  match expires with
  | OInt z => ret (negb (z =? 0)%Z && negb (Qle_bool now (inject_Z z)))
  | _ => raise TypeError
  end.

(** [(expires != 0 and expires <= now) or idx % 3 == 0] in [_prune] *)
Definition prune_remove (expires : obj) (now : Q) (idx : nat) : M bool :=
  match expires with
  | OInt z => ret ((negb (z =? 0)%Z && Qle_bool (inject_Z z) now) || (Nat.eqb (idx mod 3) 0))
  | _ => raise TypeError
  end.

(** The loop of [_prune] over [enumerate(entries)]. *)
Fixpoint prune_loop (now : Q) (entries : list string) (idx nremoved : nat) : M nat :=
  match entries with
  | [] => ret nremoved
  | fname :: rest =>
      r <- attempt (data <- fs_read fname ;;
                    rec <- _deserialize data ;;
                    ev <- unpack2 rec ;;
                    remove <- prune_remove (fst ev) now idx ;;
                    if remove then fs_remove fname ;;; ret (S nremoved)
                    else ret nremoved) ;;
      let nremoved' := match r with Ok k => k | Exc _ => nremoved end in
      prune_loop now rest (S idx) nremoved'
  end.

(** The body of the [try] block of [set]. *)
Definition set_try_block (tmpname filename : string) (data : blob) : M bool :=
  fs_write_file tmpname data ;;;
  exists_ <- fs_exists filename ;;
  let is_new_file := negb exists_ in
  (if is_new_file then ret tt else fs_remove filename) ;;;
  fs_replace tmpname filename ;;;
  (* os.chmod: permission bits are not modelled *)
  ret is_new_file.

(** [value or 0] *)
Definition value_or_0 (value : option Z) : Z :=
  match value with Some v => v | None => 0%Z end.

(** ** The mutually recursive methods

    [get] calls [delete] on a stale entry, [delete] calls [_update_count],
    which reads [_file_count] through [get] and writes through [set], and
    [set] calls [_prune] and [_update_count].  [fuel] bounds the depth of
    nested method calls; when it runs out the call raises [RecursionError], as
    Python does when its recursion limit is reached. *)
Fixpoint get_f (fuel : nat) (key : string) {struct fuel} : M obj :=
  match fuel with
  | O => raise RecursionError
  | S n =>
      let filename := _get_filename key in
      catch (data <- fs_read filename ;;
             rec <- _deserialize data ;;
             ev <- unpack2 rec ;;
             now <- time ;;
             stale <- expired_lt (fst ev) now ;;
             if stale then delete_f n key false ;;; ret ONone
             else ret (snd ev))
            (* except FileNotFoundError: return None;
               except Exception: log; return None *)
            (fun _ => ret ONone)
  end

with delete_f (fuel : nat) (key : string) (mgmt_element : bool) {struct fuel} : M bool :=
  match fuel with
  | O => raise RecursionError
  | S n =>
      catch (fs_remove (_get_filename key) ;;;
             (if mgmt_element then ret tt else _update_count_f n (Some (-1)%Z) None) ;;;
             ret true)
            (fun _ => ret false)
  end

with _update_count_f (fuel : nat) (delta value : option Z) {struct fuel} : M unit :=
  match fuel with
  | O => raise RecursionError
  | S n =>
      if (_threshold self =? 0)%Z then ret tt
      else
        new_count <- (match delta with
                      | Some d => if (d =? 0)%Z then ret (value_or_0 value)
                                  else (cnt <- _file_count_f n ;; py_add_int cnt d)
                      | None => ret (value_or_0 value)
                      end) ;;
        set_f n _fs_count_file (OInt new_count) None true ;;;
        ret tt
  end

(** The property [_file_count]: [self.get(self._fs_count_file) or 0]. *)
with _file_count_f (fuel : nat) {struct fuel} : M obj :=
  match fuel with
  | O => raise RecursionError
  | S n =>
      cnt <- get_f n _fs_count_file ;;
      ret (py_or cnt (OInt 0))
  end

with _prune_f (fuel : nat) {struct fuel} : M unit :=
  match fuel with
  | O => raise RecursionError
  | S n =>
      if (_threshold self =? 0)%Z then ret tt
      else
        cnt <- _file_count_f n ;;
        over <- py_gt_int cnt (_threshold self) ;;
        if negb over then ret tt
        else
          entries <- _list_dir ;;
          now <- time ;;
          nremoved <- prune_loop now entries 0 0 ;;
          remaining <- _list_dir ;;
          _update_count_f n None (Some (Z.of_nat (length remaining)))
          (* logger.debug("evicted %d key(s)", nremoved) *)
  end

with set_f (fuel : nat) (key : string) (value : obj) (timeout : option Q)
           (mgmt_element : bool) {struct fuel} : M bool :=
  match fuel with
  | O => raise RecursionError
  | S n =>
      (if mgmt_element then ret tt else _prune_f n) ;;;
      let timeout := if mgmt_element then Some 0%Q else timeout in
      t <- _normalize_timeout timeout ;;
      let filename := _get_filename key in
      let tmpname := filename ++ ".__tmp" in
      data <- _serialize (OList [OInt t; value]) ;;
      r <- attempt (set_try_block tmpname filename data) ;;
      match r with
      | Exc _ => ret false   (* except Exception: log; return False *)
      | Ok is_new_file =>
          (if negb mgmt_element && is_new_file
           then _update_count_f n (Some 1%Z) None else ret tt) ;;;
          ret true
      end
  end.

(** The loop of [clear]. *)
Fixpoint clear_loop (fuel : nat) (fnames : list string) : M bool :=
  match fnames with
  | [] => _update_count_f fuel None (Some 0%Z) ;;; ret true
  | fname :: rest =>
      r <- attempt (fs_remove fname) ;;
      match r with
      | Ok _ => clear_loop fuel rest
      | Exc e =>
          if is_oserror e then
            remaining <- _list_dir ;;
            _update_count_f fuel None (Some (Z.of_nat (length remaining))) ;;;
            ret false
          else raise e
      end
  end.

Definition clear_f (fuel : nat) : M bool :=
  fnames <- _list_dir ;; clear_loop fuel fnames.

Definition add_f (fuel : nat) (key : string) (value : obj) (timeout : option Q) : M bool :=
  let filename := _get_filename key in
  exists_ <- fs_exists filename ;;
  if negb exists_ then set_f fuel key value timeout false
  else ret false.

Definition has_f (fuel : nat) (key : string) : M bool :=
  match fuel with
  | O => raise RecursionError
  | S n =>
      let filename := _get_filename key in
      catch (data <- fs_read filename ;;
             rec <- _deserialize data ;;
             ev <- unpack2 rec ;;
             now <- time ;;
             stale <- expired_lt (fst ev) now ;;
             if stale then delete_f n key false ;;; ret false
             else ret true)
            (fun _ => ret false)
  end.

(** [__init__] once the constructor arguments are stored:
    [os.makedirs(self._path)] creates the implicit cache directory of the
    model or fails with [EEXIST], which is swallowed; either way the listing
    is the one of [files]. Then the count is written when [threshold != 0]. *)
Definition __init___f (fuel : nat) : M unit :=
  if negb (_threshold self =? 0)%Z then
    names <- _list_dir ;;
    _update_count_f fuel None (Some (Z.of_nat (length names)))
  else ret tt.

(** ** The public methods, at a fixed nesting limit *)

Definition recursion_limit : nat := 100.

Definition get (key : string) : M obj := get_f recursion_limit key.
Definition set (key : string) (value : obj) (timeout : option Q) : M bool :=
  set_f recursion_limit key value timeout false.
Definition add (key : string) (value : obj) (timeout : option Q) : M bool :=
  add_f recursion_limit key value timeout.
Definition delete (key : string) : M bool := delete_f recursion_limit key false.
Definition has (key : string) : M bool := has_f recursion_limit key.
Definition clear : M bool := clear_f recursion_limit.
Definition _file_count : M obj := _file_count_f recursion_limit.
Definition _update_count (delta value : option Z) : M unit :=
  _update_count_f recursion_limit delta value.
Definition _prune : M unit := _prune_f recursion_limit.
Definition __init__ : M unit := __init___f recursion_limit.

End Cache.

(** ** Concrete configurations used by the witnesses and counterexamples *)

(** A stand-in digest: the bytes of the key itself ([hexdigest] then spells
    them in hex, e.g. "a" is stored as "61"). *)
Definition bytes_hash (k : string) : list Byte.byte :=
  map byte_of_ascii (list_ascii_of_string k).

(** [FileSystemCacheMsgspec(dir, threshold=3)] with the default
    [default_timeout=300], [mode=0o600] and no compression. *)
Definition demo_cache : cache := mkcache 3 300 384 bytes_hash false false 3.

(** The same with a negative threshold, [threshold=-1]. *)
Definition negative_cache : cache := mkcache (-1) 300 384 bytes_hash false false 3.

(** The same with [threshold=0]: no counting and no eviction. *)
Definition unbounded_cache : cache := mkcache 0 300 384 bytes_hash false false 3.

(** The directory right after [__init__] on an empty directory at time 100:
    only the counter entry, holding 0 with expiry 0. *)
Definition counter_name : string := _get_filename demo_cache _fs_count_file.
Definition init_state : state :=
  mkstate [(counter_name, mkfile (Packed (OList [OInt 0; OInt 0])) false)] 100 [].

(** The counter and the entry of "a", whose file the process may not
    remove. *)
Definition locked_state : state :=
  mkstate [(counter_name, mkfile (Packed (OList [OInt 0; OInt 1])) false);
           ("61", mkfile (Packed (OList [OInt 0; OInt 1])) true)] 100 [].

(** The same state observed later, at time [t]. *)
Definition at_time (st : state) (t : Q) : state := mkstate (files st) t (trace st).

(** An empty cache directory at time 100 (no counter file yet). *)
Definition empty_state : state := mkstate [] 100 [].

(** The directory of [init_state] with the counter holding [c]. *)
Definition counter_state (c : Z) : state :=
  mkstate [(counter_name, mkfile (Packed (OList [OInt 0; OInt c])) false)] 100 [].

(** The counter and one entry for the key "a" (file "61"), stored with
    expiry 150 and value 7. *)
Definition entry_state : state :=
  mkstate [(counter_name, mkfile (Packed (OList [OInt 0; OInt 1])) false);
           ("61", mkfile (Packed (OList [OInt 150; OInt 7])) false)] 100 [].

(** Four entries after the counter, which reads 4, at time 100: keys "a"
    (expiry 150), "b" (expiry 50), "c" and "d" (no expiry). *)
Definition crowded_state : state :=
  mkstate [(counter_name, mkfile (Packed (OList [OInt 0; OInt 4])) false);
           ("61", mkfile (Packed (OList [OInt 150; OInt 7])) false);
           ("62", mkfile (Packed (OList [OInt 50; OInt 8])) false);
           ("63", mkfile (Packed (OList [OInt 0; OInt 9])) false);
           ("64", mkfile (Packed (OList [OInt 0; OInt 10])) false)] 100 [].

(** Four entries, the second (key "b") expiring exactly at the current
    time 100. *)
Definition boundary_state : state :=
  mkstate [(counter_name, mkfile (Packed (OList [OInt 0; OInt 4])) false);
           ("61", mkfile (Packed (OList [OInt 0; OInt 7])) false);
           ("62", mkfile (Packed (OList [OInt 100; OInt 8])) false);
           ("63", mkfile (Packed (OList [OInt 0; OInt 9])) false);
           ("64", mkfile (Packed (OList [OInt 0; OInt 10])) false)] 100 [].


(** "a" holds [None] with no expiry. *)
Definition none_state : state :=
  mkstate [(counter_name, mkfile (Packed (OList [OInt 0; OInt 1])) false);
           ("61", mkfile (Packed (OList [OInt 0; ONone])) false)] 100 [].

(** Key "a" is on disk but the count reads 0 (a file the count missed). *)
Definition stray_state : state :=
  mkstate [(counter_name, mkfile (Packed (OList [OInt 0; OInt 0])) false);
           ("61", mkfile (Packed (OList [OInt 0; OInt 7])) false)] 100 [].

(** The directory of [crowded_state] with a transaction file left over by a
    write that never finished. *)
Definition pending_state : state :=
  mkstate (files crowded_state ++
           [("62.__wz_cache", mkfile (Packed (OList [OInt 50; OInt 8])) false)])%list 100 [].

(** The value of a lower-case hex digit. *)
Definition unhex (c : ascii) : N :=
  let n := N_of_ascii c in if (n <? 58)%N then (n - 48)%N else (n - 87)%N.

(** The bytes [_serialize] produces for a record. *)
Definition record_blob (self : cache) (o : obj) : blob :=
  if compress self then Zipped (Packed o) else Packed o.

(** The absolute expiry [_normalize_timeout] computes at time [now]. *)
Definition normalized_expiry (self : cache) (timeout : option Q) (now : Q) : Z :=
  let t := base_normalize_timeout self timeout in
  if Qeq_bool t 0 then py_int t else py_int (now + t).

(** A change of the counter file that keeps it, removes it, or replaces it
    by a record with expiry 0. *)
Definition counter_record_step (self : cache) (a b : option file) : Prop :=
  b = a \/ b = None \/ exists c u, b = Some (mkfile (record_blob self (OList [OInt 0; OInt c])) u).

(** Names [_list_dir] keeps from a listing. *)
Definition listed (self : cache) (names : list string) : list string :=
  filter (fun fn => negb (endswith fn _fs_transaction_suffix)
                    && negb (existsb (String.eqb fn) [_get_filename self _fs_count_file])) names.

(** The directory after removing the names [l] one after the other. *)
Fixpoint remove_all (l : list string) (d : dir) : dir :=
  match l with
  | [] => d
  | n :: l' => remove_all l' (remove_name n d)
  end.

(** [os.remove(n)] succeeds on the directory [d]. *)
Definition removable (d : dir) (n : string) : bool :=
  match lookup n d with Some f => negb (undeletable f) | None => false end.

(** No name occurs twice in a listing. *)
Fixpoint distinct_names (l : list string) : bool :=
  match l with
  | [] => true
  | n :: l' => negb (existsb (String.eqb n) l') && distinct_names l'
  end.

(** The removal rule of the eviction sweep, as the specification states
    it: the entry at position [idx] goes when its stored record decodes to
    an expiry [e] with [e <> 0] and [e <= now], or when [idx] is a multiple
    of 3; an entry that does not decode to a record with an int expiry, or
    that the process may not remove, stays. *)
Definition record_expiry (self : cache) (b : blob) : option Z :=
  match (if compress self then match b with Zipped b' => Some b' | _ => None end
         else Some b) with
  | Some (Packed (OList [OInt e; _])) => Some e
  | _ => None
  end.

Definition sweep_decision (self : cache) (now : Q) (f : file) (idx : nat) : bool :=
  negb (undeletable f) &&
  match record_expiry self (contents f) with
  | Some e => (negb (e =? 0)%Z && Qle_bool (inject_Z e) now) || Nat.eqb (idx mod 3) 0
  | None => false
  end.

(** The names the sweep removes from [entries], numbered from [idx]. *)
Fixpoint swept (self : cache) (now : Q) (d : dir) (entries : list string) (idx : nat)
  : list string :=
  match entries with
  | [] => []
  | n :: rest =>
      match lookup n d with
      | Some f => if sweep_decision self now f idx then [n] else []
      | None => []
      end ++ swept self now d rest (S idx)
  end.

(** ** Lemmas on the directory operations *)

Open Scope list_scope.

Lemma lookup_put x n f d :
  lookup x (put n f d) = if String.eqb x n then Some f else lookup x d.
Proof.
  induction d as [|[m g] d IH]; simpl.
  - destruct (String.eqb x n); reflexivity.
  - destruct (String.eqb n m) eqn:E; simpl.
    + apply String.eqb_eq in E; subst m.
      destruct (String.eqb x n); reflexivity.
    + destruct (String.eqb x m) eqn:E2; [|exact IH].
      apply String.eqb_eq in E2; subst m.
      destruct (String.eqb x n) eqn:E3; [|reflexivity].
      apply String.eqb_eq in E3; subst n. rewrite String.eqb_refl in E. discriminate.
Qed.

Lemma lookup_remove_name x n d :
  lookup x (remove_name n d) = if String.eqb x n then None else lookup x d.
Proof.
  induction d as [|[m g] d IH]; simpl.
  - destruct (String.eqb x n); reflexivity.
  - destruct (String.eqb n m) eqn:E; simpl.
    + apply String.eqb_eq in E; subst m. rewrite IH.
      destruct (String.eqb x n); reflexivity.
    + rewrite IH. destruct (String.eqb x m) eqn:E2; [|reflexivity].
      apply String.eqb_eq in E2; subst m.
      destruct (String.eqb x n) eqn:E3; [|reflexivity].
      apply String.eqb_eq in E3; subst n. rewrite String.eqb_refl in E. discriminate.
Qed.

Lemma lookup_rename_other x src dst d :
  x <> src -> x <> dst -> lookup x (rename src dst d) = lookup x d.
Proof.
  intros H1 H2. induction d as [|[m g] d IH]; simpl; [reflexivity|].
  destruct (String.eqb src m) eqn:E; simpl.
  - apply String.eqb_eq in E; subst m.
    apply String.eqb_neq in H1, H2. rewrite H1, H2. reflexivity.
  - rewrite IH. reflexivity.
Qed.

Lemma lookup_rename_dst src dst d :
  lookup dst d = None -> lookup dst (rename src dst d) = lookup src d.
Proof.
  induction d as [|[m g] d IH]; simpl; [reflexivity|].
  destruct (String.eqb dst m) eqn:E1; [discriminate|].
  intros H. destruct (String.eqb src m) eqn:E; simpl.
  - rewrite String.eqb_refl. reflexivity.
  - rewrite E1. apply IH, H.
Qed.

(** ** Frames: how an operation can change the file named [x]

    [frame R x m]: from any state, [m] only appends snapshots to the trace,
    keeps the clock, and every snapshot and the final state relate to the
    initial file [x] by [R]. *)

Section Frame.
#[local] Set Default Proof Using "All".
Variable R : option file -> option file -> Prop.
Hypothesis R_refl : forall a, R a a.
Hypothesis R_trans : forall a b c, R a b -> R b c -> R a c.
Variable x : string.

Definition frame {A} (m : M A) : Prop :=
  forall st, exists ds,
    trace (snd (m st)) = trace st ++ ds /\
    Forall (fun d => R (lookup x (files st)) (lookup x d)) ds /\
    R (lookup x (files st)) (lookup x (files (snd (m st)))) /\
    clock (snd (m st)) = clock st.

(** An operation that leaves the state as it is. *)
Definition pure_op {A} (m : M A) : Prop := forall st, snd (m st) = st.

Lemma frame_pure {A} (m : M A) : pure_op m -> frame m.
Proof.
  intros H st. exists []. rewrite H. rewrite app_nil_r. auto.
Qed.

Lemma frame_bind {A B} (m : M A) (k : A -> M B) :
  frame m -> (forall a, frame (k a)) -> frame (bind m k).
Proof.
  intros Hm Hk st. unfold bind.
  destruct (Hm st) as (ds1 & T1 & F1 & L1 & C1).
  destruct (m st) as [[a|e] st1]; simpl in *.
  - destruct (Hk a st1) as (ds2 & T2 & F2 & L2 & C2).
    exists (ds1 ++ ds2). repeat split.
    + rewrite T2, T1, app_assoc. reflexivity.
    + apply Forall_app. split; [exact F1|].
      eapply Forall_impl; [|exact F2]. intros d Hd. eapply R_trans; eauto.
    + eapply R_trans; eauto.
    + congruence.
  - exists ds1. auto.
Qed.

Lemma frame_catch {A} (m : M A) (h : exn -> M A) :
  frame m -> (forall e, frame (h e)) -> frame (catch m h).
Proof.
  intros Hm Hh st. unfold catch.
  destruct (Hm st) as (ds1 & T1 & F1 & L1 & C1).
  destruct (m st) as [[a|e] st1]; simpl in *.
  - exists ds1. auto.
  - destruct (Hh e st1) as (ds2 & T2 & F2 & L2 & C2).
    exists (ds1 ++ ds2). repeat split.
    + rewrite T2, T1, app_assoc. reflexivity.
    + apply Forall_app. split; [exact F1|].
      eapply Forall_impl; [|exact F2]. intros d Hd. eapply R_trans; eauto.
    + eapply R_trans; eauto.
    + congruence.
Qed.

Lemma frame_attempt {A} (m : M A) : frame m -> frame (attempt m).
Proof.
  intros Hm st. unfold attempt.
  destruct (Hm st) as (ds1 & T1 & F1 & L1 & C1).
  destruct (m st) as [r st1]; simpl in *. exists ds1. auto.
Qed.

Lemma frame_ret {A} (a : A) : frame (ret a).
Proof. apply frame_pure. intros st. reflexivity. Qed.

Lemma frame_raise {A} (e : exn) : frame (@raise A e).
Proof. apply frame_pure. intros st. reflexivity. Qed.

(** One new listing [d'] computed from the current one. *)
Lemma frame_set_files_of (f : dir -> dir) :
  (forall d, R (lookup x d) (lookup x (f d))) ->
  frame (d <- get_files ;; set_files (f d)).
Proof.
  intros H st. exists [f (files st)]. simpl. repeat split; auto.
Qed.

End Frame.

(** Operations that only read the state. *)
Ltac pure_tac :=
  let st := fresh "st" in
  intros st;
  cbv [fs_read fs_exists fs_listdir _list_dir _deserialize _serialize unpack2
       py_add_int py_gt_int _normalize_timeout expired_lt prune_remove
       bind ret raise get_files time];
  repeat (simpl;
    match goal with
    | |- context [match ?v with _ => _ end] =>
        lazymatch type of v with
        | (_ * state)%type => fail
        | _ => destruct v
        end
    end); reflexivity.

#[global] Hint Constructors Forall : core.

Section FrameOps.
#[local] Set Default Proof Using "All".
Variable R : option file -> option file -> Prop.
Hypothesis R_refl : forall a, R a a.
Hypothesis R_trans : forall a b c, R a b -> R b c -> R a c.
Variable x : string.

Lemma frame_fs_remove_other n : n <> x -> frame R x (fs_remove n).
Proof.
  intros Hn st. unfold fs_remove, bind, get_files, ret, raise, set_files; simpl.
  assert (E : String.eqb x n = false) by (apply String.eqb_neq; congruence).
  destruct (lookup n (files st)) as [[c u]|]; [destruct u|]; simpl.
  - exists []. rewrite app_nil_r. auto.
  - exists [remove_name n (files st)].
    repeat split; auto; repeat constructor; rewrite lookup_remove_name, E; auto.
  - exists []. rewrite app_nil_r. auto.
Qed.

Lemma frame_fs_remove_any n : (forall a, R a None) -> frame R x (fs_remove n).
Proof.
  intros HN st. unfold fs_remove, bind, get_files, ret, raise, set_files; simpl.
  destruct (lookup n (files st)) as [[c u]|]; [destruct u|]; simpl.
  - exists []. rewrite app_nil_r. auto.
  - exists [remove_name n (files st)].
    repeat split; auto; repeat constructor; rewrite lookup_remove_name;
      destruct (String.eqb x n); auto.
  - exists []. rewrite app_nil_r. auto.
Qed.

Lemma frame_fs_write_file_other n b : n <> x -> frame R x (fs_write_file n b).
Proof.
  intros Hn st. unfold fs_write_file, bind, get_files, ret, set_files. simpl.
  assert (E : String.eqb x n = false) by (apply String.eqb_neq; congruence).
  eexists. split; [rewrite <- app_assoc; reflexivity|].
  repeat split; auto; repeat constructor; rewrite ?lookup_put, ?E, ?lookup_put, ?E; auto.
Qed.

Lemma frame_fs_replace_other src dst :
  src <> x -> dst <> x -> frame R x (fs_replace src dst).
Proof.
  intros H1 H2 st. unfold fs_replace, bind, get_files, ret, raise, set_files; simpl.
  assert (E : String.eqb x dst = false) by (apply String.eqb_neq; congruence).
  destruct (lookup src (files st)); [destruct (lookup dst (files st)) as [[c u]|]|]; simpl.
  - destruct u; simpl.
    + exists []. rewrite app_nil_r. auto.
    + exists [rename src dst (remove_name dst (files st))].
      repeat split; auto; repeat constructor;
        rewrite lookup_rename_other, lookup_remove_name, E by congruence; auto.
  - exists [rename src dst (files st)].
    repeat split; auto; repeat constructor; rewrite lookup_rename_other by congruence; auto.
  - exists []. rewrite app_nil_r. auto.
Qed.

Lemma frame_set_try_block_other tmp fn data :
  tmp <> x -> fn <> x -> frame R x (set_try_block tmp fn data).
Proof.
  intros H1 H2. unfold set_try_block.
  apply frame_bind; auto. { apply frame_fs_write_file_other; auto. } intros _.
  apply frame_bind; auto. { apply frame_pure; auto. pure_tac. } intros e.
  apply frame_bind; auto.
  { destruct (negb e). apply frame_ret; auto. apply frame_fs_remove_other; auto. }
  intros _. apply frame_bind; auto. { apply frame_fs_replace_other; auto. }
  intros _. apply frame_ret; auto.
Qed.

End FrameOps.

Lemma eq_refl_of (a : option file) : a = a.
Proof. reflexivity. Qed.

Lemma eq_trans_of (a b c : option file) : a = b -> b = c -> a = c.
Proof. congruence. Qed.

(** Walks through the monadic structure of a method body. *)
Ltac frame_walk Hr Ht :=
  repeat (cbv zeta;
    match goal with
    | |- frame _ _ (bind _ _) => apply (frame_bind _ Hr Ht); [|intro]
    | |- frame _ _ (catch _ _) => apply (frame_catch _ Hr Ht); [|intro]
    | |- frame _ _ (attempt _) => apply (frame_attempt _ Hr Ht)
    | |- frame _ _ (ret _) => apply (frame_ret _ Hr Ht)
    | |- frame _ _ (raise _) => apply (frame_raise _ Hr Ht)
    | |- frame _ _ (match ?v with _ => _ end) => destruct v
    | |- frame _ _ (fs_read _) => apply (frame_pure _ Hr Ht); pure_tac
    | |- frame _ _ (fs_exists _) => apply (frame_pure _ Hr Ht); pure_tac
    | |- frame _ _ (_list_dir _) => apply (frame_pure _ Hr Ht); pure_tac
    | |- frame _ _ (_deserialize _ _) => apply (frame_pure _ Hr Ht); pure_tac
    | |- frame _ _ (_serialize _ _) => apply (frame_pure _ Hr Ht); pure_tac
    | |- frame _ _ (_normalize_timeout _ _) => apply (frame_pure _ Hr Ht); pure_tac
    | |- frame _ _ (unpack2 _) => apply (frame_pure _ Hr Ht); pure_tac
    | |- frame _ _ (py_add_int _ _) => apply (frame_pure _ Hr Ht); pure_tac
    | |- frame _ _ (py_gt_int _ _) => apply (frame_pure _ Hr Ht); pure_tac
    | |- frame _ _ (expired_lt _ _) => apply (frame_pure _ Hr Ht); pure_tac
    | |- frame _ _ (prune_remove _ _ _) => apply (frame_pure _ Hr Ht); pure_tac
    | |- frame _ _ time => apply (frame_pure _ Hr Ht); pure_tac
    end).

Section Untouched.
Variable self : cache.
Variable x : string.
Hypothesis Hx1 : x <> _get_filename self _fs_count_file.
Hypothesis Hx2 : x <> (_get_filename self _fs_count_file ++ ".__tmp")%string.

(** The methods reached from [get], [delete] and [_update_count] write only
    the counter entry and its temporary file: any other file they do not
    name is left exactly as it is. *)
Lemma untouched_methods n :
  (forall k, _get_filename self k <> x -> frame eq x (get_f self n k)) /\
  (forall k m, _get_filename self k <> x -> frame eq x (delete_f self n k m)) /\
  (forall d v, frame eq x (_update_count_f self n d v)) /\
  frame eq x (_file_count_f self n) /\
  (forall k v t, _get_filename self k <> x -> (_get_filename self k ++ ".__tmp")%string <> x ->
     frame eq x (set_f self n k v t true)).
Proof.
  pose proof eq_refl_of as Hr. pose proof eq_trans_of as Ht.
  induction n as [|n IH].
  { repeat split; intros; apply (frame_raise _ Hr Ht). }
  destruct IH as (IHg & IHd & IHu & IHc & IHs).
  repeat split; intros.
  - cbn [get_f]. frame_walk Hr Ht; auto.
  - cbn [delete_f]. frame_walk Hr Ht; auto.
    apply (frame_fs_remove_other _ Hr Ht); auto.
  - cbn [_update_count_f]. frame_walk Hr Ht; auto.
  - cbn [_file_count_f]. frame_walk Hr Ht; auto.
  - cbn [set_f]. frame_walk Hr Ht; auto.
    apply (frame_set_try_block_other _ Hr Ht); auto.
Qed.

End Untouched.

(** ** File names are hex digests *)

Lemma hex_digit_byte_not_dot (b : Byte.byte) :
  hex_digit (N.div (Byte.to_N b) 16) <> "."%char /\
  hex_digit (N.modulo (Byte.to_N b) 16) <> "."%char.
Proof. destruct b; split; vm_compute; discriminate. Qed.

Lemma hexdigest_no_dot d : ~ In "."%char (list_ascii_of_string (hexdigest d)).
Proof.
  induction d as [|b d IH]; simpl; [tauto|].
  destruct (hex_digit_byte_not_dot b) as [H1 H2].
  intros [H|[H|H]]; auto.
Qed.

Lemma list_ascii_of_string_app s t :
  list_ascii_of_string (s ++ t) = list_ascii_of_string s ++ list_ascii_of_string t.
Proof. induction s; simpl; congruence. Qed.

Lemma in_substring c i k s :
  In c (list_ascii_of_string (substring i k s)) -> In c (list_ascii_of_string s).
Proof.
  revert i k. induction s as [|a s IH]; intros i k; simpl.
  - destruct i, k; simpl; tauto.
  - destruct i as [|i]; [destruct k as [|k]|]; simpl; [tauto| |].
    + intros [H|H]; [left; exact H|right; eapply IH; exact H].
    + intros H. right. eapply IH; exact H.
Qed.

Lemma hexdigest_not_tmp d d' : hexdigest d <> (hexdigest d' ++ ".__tmp")%string.
Proof.
  intros E. apply (hexdigest_no_dot d). rewrite E, list_ascii_of_string_app.
  apply in_or_app. right. simpl. auto.
Qed.

Lemma hexdigest_not_transaction d : endswith (hexdigest d) _fs_transaction_suffix = false.
Proof.
  unfold endswith. destruct (_ <=? _)%nat; [|reflexivity]. simpl.
  destruct (String.eqb _ _) eqn:E; [|reflexivity].
  apply String.eqb_eq in E. exfalso. apply (hexdigest_no_dot d).
  eapply in_substring. rewrite E. simpl. auto.
Qed.

Lemma filename_not_tmp self k k' :
  _get_filename self k <> (_get_filename self k' ++ ".__tmp")%string.
Proof. apply hexdigest_not_tmp. Qed.

(** [_list_dir] keeps every entry file other than the counter. *)
Lemma listed_filename self k names :
  _get_filename self k <> _get_filename self _fs_count_file ->
  In (_get_filename self k) names -> In (_get_filename self k) (listed self names).
Proof.
  intros Hk Hin. unfold listed. apply filter_In. split; [exact Hin|].
  unfold _get_filename at 1. rewrite hexdigest_not_transaction. simpl.
  destruct (String.eqb _ _) eqn:E; [apply String.eqb_eq in E; contradiction|reflexivity].
Qed.

Lemma _list_dir_eq self st : _list_dir self st = (Ok (listed self (map fst (files st))), st).
Proof. reflexivity. Qed.

(** ** The write of [set] *)

Ltac forall_split :=
  repeat match goal with
         | |- Forall _ (_ :: _) => apply Forall_cons
         | |- Forall _ [] => apply Forall_nil
         end.

(** The [try] block of [set] seen from its target [x]: the target keeps its
    file, disappears (the [os.remove]), or holds the complete new bytes (the
    [os.replace]); when the block completes, the target holds the new bytes. *)
Lemma set_try_block_target tmp x data st :
  tmp <> x ->
  exists ds,
    trace (snd (set_try_block tmp x data st)) = trace st ++ ds /\
    Forall (fun d => lookup x d = lookup x (files st) \/ lookup x d = None \/
                     exists u, lookup x d = Some (mkfile data u)) ds /\
    clock (snd (set_try_block tmp x data st)) = clock st /\
    (forall b, fst (set_try_block tmp x data st) = Ok b ->
       exists u, lookup x (files (snd (set_try_block tmp x data st))) = Some (mkfile data u)) /\
    (lookup x (files (snd (set_try_block tmp x data st))) = lookup x (files st) \/
     lookup x (files (snd (set_try_block tmp x data st))) = None \/
     exists u, lookup x (files (snd (set_try_block tmp x data st))) = Some (mkfile data u)).
Proof.
  intros Ht.
  assert (Ex : String.eqb x tmp = false) by (apply String.eqb_neq; congruence).
  assert (Et : String.eqb tmp x = false) by (apply String.eqb_neq; congruence).
  set (u0 := match lookup tmp (files st) with Some f => undeletable f | None => false end).
  set (d1 := put tmp (mkfile Partial u0) (files st)).
  set (d2 := put tmp (mkfile data u0) d1).
  assert (L2x : lookup x d2 = lookup x (files st)) by (unfold d2, d1; rewrite !lookup_put, Ex; reflexivity).
  assert (L1x : lookup x d1 = lookup x (files st)) by (unfold d1; rewrite !lookup_put, Ex; reflexivity).
  assert (L2t : lookup tmp d2 = Some (mkfile data u0)) by (unfold d2; rewrite lookup_put, String.eqb_refl; reflexivity).
  cbv [set_try_block fs_write_file fs_exists fs_remove fs_replace bind ret raise get_files set_files].
  simpl. fold u0 d1 d2.
  destruct (lookup x (files st)) as [[c u]|] eqn:Lx;
    repeat progress (simpl; rewrite ?L2x, ?L2t, ?Lx).
  - destruct u; repeat progress (simpl; rewrite ?L2x, ?L2t, ?Lx).
    + exists [d1; d2]. repeat split.
      * rewrite <- app_assoc. reflexivity.
      * forall_split; left; congruence.
      * intros b Hb; discriminate.
      * left; congruence.
    + rewrite !lookup_remove_name, Et, L2t, String.eqb_refl. simpl.
      exists [d1; d2; remove_name x d2; rename tmp x (remove_name x d2)]. repeat split.
      * rewrite <- !app_assoc. reflexivity.
      * forall_split.
        -- left; congruence.
        -- left; congruence.
        -- right; left. rewrite lookup_remove_name, String.eqb_refl. reflexivity.
        -- right; right. exists u0. rewrite lookup_rename_dst.
           ++ rewrite lookup_remove_name, Et. exact L2t.
           ++ rewrite lookup_remove_name, String.eqb_refl. reflexivity.
      * intros b _. exists u0. rewrite lookup_rename_dst.
        -- rewrite lookup_remove_name, Et. exact L2t.
        -- rewrite lookup_remove_name, String.eqb_refl. reflexivity.
      * right; right. exists u0. rewrite lookup_rename_dst.
        -- rewrite lookup_remove_name, Et. exact L2t.
        -- rewrite lookup_remove_name, String.eqb_refl. reflexivity.
  - exists [d1; d2; rename tmp x d2]. repeat split.
    + rewrite <- !app_assoc. reflexivity.
    + forall_split.
      * left; congruence.
      * left; congruence.
      * right; right. exists u0. rewrite lookup_rename_dst by congruence. exact L2t.
    + intros b _. exists u0. rewrite lookup_rename_dst by congruence. exact L2t.
    + right; right. exists u0. rewrite lookup_rename_dst by congruence. exact L2t.
Qed.

(** ** Eviction and the phases of [set] *)

(** A file that is kept or removed. *)
Definition kept_or_removed (a b : option file) : Prop := b = a \/ b = None.

Lemma kept_or_removed_refl a : kept_or_removed a a.
Proof. left; reflexivity. Qed.

Lemma kept_or_removed_trans a b c :
  kept_or_removed a b -> kept_or_removed b c -> kept_or_removed a c.
Proof. unfold kept_or_removed. intuition congruence. Qed.

Lemma frame_eq_weaken R x {A} (m : M A) :
  (forall a, R a a) -> frame eq x m -> frame R x m.
Proof.
  intros Hr H st. destruct (H st) as (ds & T & F & L & C). exists ds.
  repeat split; auto.
  - eapply Forall_impl; [|exact F]. intros d <-. apply Hr.
  - rewrite <- L. apply Hr.
Qed.

(** The sweep of [_prune] only removes files. *)
Lemma frame_prune_loop self x now entries : forall idx nr,
  frame kept_or_removed x (prune_loop self now entries idx nr).
Proof.
  pose proof kept_or_removed_refl as Hr. pose proof kept_or_removed_trans as Ht.
  induction entries as [|fname rest IH]; intros idx nr; cbn [prune_loop].
  - apply (frame_ret _ Hr Ht).
  - frame_walk Hr Ht; auto.
    apply (frame_fs_remove_any _ Hr Ht). intros ?. right. reflexivity.
Qed.

Lemma frame_prune self x n :
  x <> _get_filename self _fs_count_file ->
  x <> (_get_filename self _fs_count_file ++ ".__tmp")%string ->
  frame kept_or_removed x (_prune_f self n).
Proof.
  intros Hx1 Hx2.
  pose proof kept_or_removed_refl as Hr. pose proof kept_or_removed_trans as Ht.
  destruct n as [|n]; cbn [_prune_f]; frame_walk Hr Ht.
  - apply frame_eq_weaken; auto. apply (untouched_methods self x Hx1 Hx2 n).
  - apply frame_prune_loop.
  - apply frame_eq_weaken; auto. apply (untouched_methods self x Hx1 Hx2 n).
Qed.

Lemma normalize_timeout_eq self timeout st :
  _normalize_timeout self timeout st = (Ok (normalized_expiry self timeout (clock st)), st).
Proof.
  unfold _normalize_timeout, normalized_expiry, bind, time, ret.
  destruct (Qeq_bool _ _); reflexivity.
Qed.

Lemma serialize_eq self o st :
  _serialize self o st =
  (if msgpack_encodable o then Ok (record_blob self o) else Exc EncodeError, st).
Proof.
  unfold _serialize, record_blob, ret, raise.
  destruct (msgpack_encodable o); reflexivity.
Qed.

Lemma deserialize_record self o st :
  _deserialize self (record_blob self o) st = (Ok o, st).
Proof.
  unfold _deserialize, record_blob, bind, ret, raise.
  destruct (compress self); reflexivity.
Qed.
(** The phases of a (non-management) [set] seen from the key's own file:
    the file keeps its old content, is absent, or holds the new record. *)
Lemma set_target self n key value timeout st :
  _get_filename self key <> _get_filename self _fs_count_file ->
  let x := _get_filename self key in
  let newblob := record_blob self (OList [OInt (normalized_expiry self timeout (clock st)); value]) in
  let res := set_f self (S n) key value timeout false st in
  exists ds,
    trace (snd res) = trace st ++ ds /\
    Forall (fun d => lookup x d = lookup x (files st) \/ lookup x d = None \/
                     exists u, lookup x d = Some (mkfile newblob u)) ds /\
    clock (snd res) = clock st /\
    (fst res = Ok true -> exists u, lookup x (files (snd res)) = Some (mkfile newblob u)).
Proof.
  intros Hk x newblob res.
  assert (Hx2 : x <> (_get_filename self _fs_count_file ++ ".__tmp")%string)
    by apply filename_not_tmp.
  assert (Htmp : (x ++ ".__tmp")%string <> x)
    by (intro E; symmetry in E; exact (filename_not_tmp self key key E)).
  destruct (frame_prune self x n Hk Hx2 st) as (ds1 & T1 & F1 & L1 & C1).
  unfold res; clear res. cbn [set_f]. cbv [bind ret raise attempt]. simpl.
  destruct (_prune_f self n st) as [[u1|e1] st1]; simpl in *.
  2:{ exists ds1. repeat split; auto.
      - eapply Forall_impl; [|exact F1]. intros d [H|H]; auto.
      - discriminate. }
  rewrite normalize_timeout_eq, serialize_eq, C1. fold newblob.
  destruct (msgpack_encodable (OList [OInt (normalized_expiry self timeout (clock st)); value]));
    simpl.
  2:{ exists ds1. repeat split; auto.
      - eapply Forall_impl; [|exact F1]. intros d [H|H]; auto.
      - discriminate. }
  destruct (set_try_block_target (x ++ ".__tmp") x newblob st1 Htmp) as (ds2 & T2 & F2 & C2 & O2 & _).
  assert (F12 : Forall (fun d => lookup x d = lookup x (files st) \/ lookup x d = None \/
                     exists u, lookup x d = Some (mkfile newblob u)) (ds1 ++ ds2)).
  { apply Forall_app. split.
    - eapply Forall_impl; [|exact F1]. intros d [H|H]; auto.
    - eapply Forall_impl; [|exact F2]. intros d [H|[H|H]]; auto.
      destruct L1 as [L1|L1]; rewrite L1 in H; auto. }
  unfold x in *.
  destruct (set_try_block _ _ newblob st1) as [[b|e2] st2]; simpl in *.
  2:{ exists (ds1 ++ ds2). rewrite T2, T1, app_assoc. repeat split; auto.
      - congruence.
      - discriminate. }
  destruct (O2 b eq_refl) as [u2 O2'].
  destruct b; simpl.
  2:{ exists (ds1 ++ ds2). rewrite T2, T1, app_assoc. repeat split; auto.
      - congruence.
      - intros _. exists u2. exact O2'. }
  destruct (untouched_methods self _ Hk Hx2 n) as (_ & _ & Hu & _).
  destruct (Hu (Some 1%Z) None st2) as (ds3 & T3 & F3 & L3 & C3).
  destruct (_update_count_f self n (Some 1%Z) None st2) as [[?|?] st3]; simpl in *;
    (exists (ds1 ++ ds2 ++ ds3); rewrite T3, T2, T1, !app_assoc; repeat split; auto;
     [ apply Forall_app; split; [exact F12|];
       eapply Forall_impl; [|exact F3]; intros d Hd; rewrite <- Hd, O2'; eauto
     | congruence
     | try discriminate; intros _; exists u2; rewrite <- L3; exact O2' ]).
Qed.

(** ** Every method only appends to the trace and keeps the clock *)

Definition any_change (a b : option file) : Prop := True.

Lemma any_change_refl a : any_change a a.
Proof. exact I. Qed.

Lemma any_change_trans a b c : any_change a b -> any_change b c -> any_change a c.
Proof. intros. exact I. Qed.

Ltac split_matches :=
  repeat match goal with
         | |- context [match ?v with _ => _ end] =>
             lazymatch type of v with
             | (_ * state)%type => fail
             | _ => destruct v; simpl
             end
         end.

Lemma frame_any_set_try_block x tmp fn data : frame any_change x (set_try_block tmp fn data).
Proof.
  intros st.
  cbv [set_try_block fs_write_file fs_exists fs_remove fs_replace bind ret raise
       get_files set_files]; simpl.
  split_matches;
    eexists; (split; [rewrite <- ?app_assoc; reflexivity|]);
    repeat split; try exact I; apply Forall_forall; intros; exact I.
Qed.

Lemma frame_mono (R R' : option file -> option file -> Prop) x {A} (m : M A) :
  (forall a b, R a b -> R' a b) -> frame R x m -> frame R' x m.
Proof.
  intros HR H st. destruct (H st) as (ds & T & F & L & C). exists ds.
  repeat split; auto. eapply Forall_impl; [|exact F]. auto.
Qed.

Lemma frame_any_fs_remove x n : frame any_change x (fs_remove n).
Proof. apply (frame_fs_remove_any _ any_change_refl any_change_trans). intros; exact I. Qed.

(** All methods, whatever their arguments. *)
Lemma trace_grows_methods (self : cache) (x : string) (n : nat) :
  (forall k, frame any_change x (get_f self n k)) /\
  (forall k m, frame any_change x (delete_f self n k m)) /\
  (forall d v, frame any_change x (_update_count_f self n d v)) /\
  frame any_change x (_file_count_f self n) /\
  frame any_change x (_prune_f self n) /\
  (forall k v t m, frame any_change x (set_f self n k v t m)).
Proof.
  pose proof any_change_refl as Hr. pose proof any_change_trans as Ht.
  induction n as [|n IH].
  { repeat split; intros; apply (frame_raise _ Hr Ht). }
  destruct IH as (IHg & IHd & IHu & IHc & IHp & IHs).
  repeat split; intros.
  - cbn [get_f]. frame_walk Hr Ht; auto.
  - cbn [delete_f]. frame_walk Hr Ht; auto. apply frame_any_fs_remove.
  - cbn [_update_count_f]. frame_walk Hr Ht; auto.
  - cbn [_file_count_f]. frame_walk Hr Ht; auto.
  - cbn [_prune_f]. frame_walk Hr Ht; auto.
    eapply frame_mono; [|apply frame_prune_loop]. intros; exact I.
  - cbn [set_f]. frame_walk Hr Ht; auto. apply frame_any_set_try_block.
Qed.

(** The trace of any method run extends the trace it started from. *)
Lemma trace_extends {A} x (m : M A) st :
  frame any_change x m -> exists ds, trace (snd (m st)) = trace st ++ ds.
Proof. intros H. destruct (H st) as (ds & T & _). eauto. Qed.


(** ** Reading an entry *)


(** [get] on a live entry returns its value and changes nothing. *)
Lemma get_live self n key st e v u :
  lookup (_get_filename self key) (files st) = Some (mkfile (record_blob self (OList [OInt e; v])) u) ->
  (e = 0%Z \/ clock st <= inject_Z e) ->
  get_f self (S n) key st = (Ok v, st).
Proof.
  intros Hl He. cbn [get_f]. cbv [catch bind fs_read get_files ret raise time].
  simpl. rewrite Hl. simpl. rewrite deserialize_record. simpl.
  replace (negb (e =? 0)%Z && negb (Qle_bool (clock st) (inject_Z e))) with false.
  - reflexivity.
  - destruct He as [He|He].
    + subst e. reflexivity.
    + apply Qle_bool_iff in He. rewrite He. destruct (e =? 0)%Z; reflexivity.
Qed.

(** [get] on a stale entry returns [None] and removes the file, when the
    removal succeeds. *)
Lemma get_stale self n key st e v u :
  lookup (_get_filename self key) (files st) = Some (mkfile (record_blob self (OList [OInt e; v])) u) ->
  e <> 0%Z -> inject_Z e < clock st ->
  fst (get_f self (S (S n)) key st) = Ok ONone /\
  (u = false -> exists ds, trace (snd (get_f self (S (S n)) key st)) = trace st ++ ds /\
                 exists d, In d ds /\ lookup (_get_filename self key) d = None).
Proof.
  intros Hl He Hlt.
  assert (Hb : negb (e =? 0)%Z && negb (Qle_bool (clock st) (inject_Z e)) = true).
  { apply Z.eqb_neq in He. rewrite He. simpl.
    destruct (Qle_bool (clock st) (inject_Z e)) eqn:E; [|reflexivity].
    apply Qle_bool_iff in E. exfalso. apply (Qlt_not_le _ _ Hlt E). }
  cbn [get_f]. cbv [catch bind fs_read get_files ret raise time].
  simpl. rewrite Hl. simpl. rewrite deserialize_record. simpl.
  rewrite Hb. cbn [delete_f].
  cbv [catch bind fs_remove get_files ret raise set_files]. simpl. rewrite Hl. simpl.
  destruct u; simpl.
  - split; [reflexivity|discriminate].
  - destruct (proj1 (proj2 (proj2 (trace_grows_methods self (_get_filename self key) n)))
                (Some (-1)%Z) None
                (mkstate (remove_name (_get_filename self key) (files st)) (clock st)
                   (trace st ++ [remove_name (_get_filename self key) (files st)])))
      as (ds & T & _).
    destruct (_update_count_f self n (Some (-1)%Z) None _) as [[?|?] st2]; simpl in *;
      (split; [reflexivity|]); intros _;
      exists ([remove_name (_get_filename self key) (files st)] ++ ds);
      (split; [rewrite T, app_assoc; reflexivity|]);
      exists (remove_name (_get_filename self key) (files st));
      (split; [left; reflexivity|]);
      rewrite lookup_remove_name, String.eqb_refl; reflexivity.
Qed.

(** [get] on a stale, deletable entry other than the counter leaves no file
    behind. *)
Lemma get_stale_removed self n key st e v :
  _get_filename self key <> _get_filename self _fs_count_file ->
  lookup (_get_filename self key) (files st) = Some (mkfile (record_blob self (OList [OInt e; v])) false) ->
  e <> 0%Z -> inject_Z e < clock st ->
  lookup (_get_filename self key) (files (snd (get_f self (S (S n)) key st))) = None.
Proof.
  intros Hk Hl He Hlt.
  assert (Hb : negb (e =? 0)%Z && negb (Qle_bool (clock st) (inject_Z e)) = true).
  { apply Z.eqb_neq in He. rewrite He. simpl.
    destruct (Qle_bool (clock st) (inject_Z e)) eqn:E; [|reflexivity].
    apply Qle_bool_iff in E. exfalso. apply (Qlt_not_le _ _ Hlt E). }
  assert (Hx2 : _get_filename self key <> (_get_filename self _fs_count_file ++ ".__tmp")%string)
    by apply filename_not_tmp.
  cbn [get_f]. cbv [catch bind fs_read get_files ret raise time].
  simpl. rewrite Hl. simpl. rewrite deserialize_record. simpl.
  rewrite Hb. cbn [delete_f].
  cbv [catch bind fs_remove get_files ret raise set_files]. simpl. rewrite Hl. simpl.
  destruct (untouched_methods self _ Hk Hx2 n) as (_ & _ & Hu & _).
  set (st1 := mkstate (remove_name (_get_filename self key) (files st)) (clock st)
                (trace st ++ [remove_name (_get_filename self key) (files st)])).
  destruct (Hu (Some (-1)%Z) None st1) as (ds & _ & _ & L & _).
  assert (L0 : lookup (_get_filename self key) (files st1) = None)
    by (simpl; rewrite lookup_remove_name, String.eqb_refl; reflexivity).
  destruct (_update_count_f self n (Some (-1)%Z) None st1) as [[?|?] st2]; simpl in *;
    congruence.
Qed.

(** A successful non-management [set] followed by [get] at a time no later
    than the stored expiry returns the value. *)
Lemma set_then_get self n m key value timeout st t' :
  _get_filename self key <> _get_filename self _fs_count_file ->
  fst (set_f self (S n) key value timeout false st) = Ok true ->
  (normalized_expiry self timeout (clock st) = 0%Z \/
   t' <= inject_Z (normalized_expiry self timeout (clock st))) ->
  get_f self (S m) key (at_time (snd (set_f self (S n) key value timeout false st)) t') =
  (Ok value, at_time (snd (set_f self (S n) key value timeout false st)) t').
Proof.
  intros Hk Hok He.
  destruct (set_target self n key value timeout st Hk) as (ds & _ & _ & _ & O).
  destruct (O Hok) as [u Hl].
  eapply get_live; [exact Hl | exact He].
Qed.

(** The decision of [get] on an expiry [e] at time [now]. *)
Lemma expired_cases (e : Z) (now : Q) :
  (e <> 0%Z /\ inject_Z e < now) \/ (e = 0%Z \/ now <= inject_Z e).
Proof.
  destruct (Z.eq_dec e 0) as [E|E]; [right; left; exact E|].
  destruct (Qlt_le_dec (inject_Z e) now) as [L|L]; [left; auto|right; right; exact L].
Qed.

(** * The claims *)

(** ** C1 *)

(** C1: [set] raises to its caller when the value cannot be encoded: the
    serialization runs before the [try] block, so for every key, timeout and
    starting state, [set] of an object msgpack cannot encode ends in an
    exception instead of returning [False]. *)
Theorem set_raises_on_unencodable self key tag timeout st :
  exists e, fst (set self key (OObject tag) timeout st) = Exc e.
Proof.
  unfold set. change recursion_limit with (S 99). generalize 99%nat. intros n.
  cbn [set_f]. cbv [bind ret raise attempt]. simpl.
  destruct (_prune_f self n st) as [[u|e] st1]; simpl; [|eauto].
  rewrite normalize_timeout_eq, serialize_eq. simpl. rewrite andb_false_r. simpl. eauto.
Qed.

(** ** C4 *)

(** C4 (amended): for every key whose file name differs from the counter's,
    a successful [set k v timeout] followed by [get k] at any time [t'] no
    later than the stored expiry (or with expiry 0) returns [v]. *)
Theorem set_get_roundtrip self key value timeout st t' :
  _get_filename self key <> _get_filename self _fs_count_file ->
  fst (set self key value timeout st) = Ok true ->
  (normalized_expiry self timeout (clock st) = 0%Z \/
   t' <= inject_Z (normalized_expiry self timeout (clock st))) ->
  fst (get self key (at_time (snd (set self key value timeout st)) t')) = Ok value.
Proof.
  unfold get, set, recursion_limit. generalize 99%nat. intros n Hk Hok He.
  exact (f_equal fst (set_then_get self n n key value timeout st t' Hk Hok He)).
Qed.

Lemma set_get_roundtrip_witness :
  (_get_filename demo_cache "a" <> _get_filename demo_cache _fs_count_file /\
   fst (set demo_cache "a" (OInt 7) None init_state) = Ok true /\
   (normalized_expiry demo_cache None (clock init_state) = 0%Z \/
    100 <= inject_Z (normalized_expiry demo_cache None (clock init_state)))) /\
  fst (get demo_cache "a" (at_time (snd (set demo_cache "a" (OInt 7) None init_state)) 100)) =
  Ok (OInt 7).
Proof.
  assert (H1 : _get_filename demo_cache "a" <> _get_filename demo_cache _fs_count_file)
    by (apply String.eqb_neq; vm_compute; reflexivity).
  assert (H2 : fst (set demo_cache "a" (OInt 7) None init_state) = Ok true)
    by (vm_compute; reflexivity).
  assert (H3 : normalized_expiry demo_cache None (clock init_state) = 0%Z \/
               100 <= inject_Z (normalized_expiry demo_cache None (clock init_state)))
    by (right; vm_compute; discriminate).
  split; [auto|]. exact (set_get_roundtrip demo_cache "a" (OInt 7) None init_state 100 H1 H2 H3).
Defined.

(** C4: the round trip fails for the counter's own key: on an empty
    directory, [set "__wz_cache_count" 5] succeeds, creates the file, and the
    count update that follows rewrites it, so [get] returns 6. *)
Lemma set_get_roundtrip_counterexample :
  fst (set demo_cache _fs_count_file (OInt 5) None empty_state) = Ok true /\
  fst (get demo_cache _fs_count_file (snd (set demo_cache _fs_count_file (OInt 5) None empty_state)))
  = Ok (OInt 6).
Proof. split; vm_compute; reflexivity. Qed.

(** ** C6 *)

(** C6: expiry semantics of [get].  For a key whose file decodes to
    [(e, v)]: if [e <> 0] and [e < now], [get] returns no value and removes
    the file (when the file system lets it: some new snapshot lacks the file,
    and the file is gone at the end unless the key is the counter's own);
    otherwise [get] returns [v] and changes nothing, so an entry with expiry 0
    is returned at any later time; and a timeout of 0 is stored as expiry 0,
    so after a successful [set k v 0] the value is returned at any time. *)
Theorem get_expiry_semantics self key st e v u :
  lookup (_get_filename self key) (files st) =
    Some (mkfile (record_blob self (OList [OInt e; v])) u) ->
  ((e <> 0%Z /\ inject_Z e < clock st) ->
     fst (get self key st) = Ok ONone /\
     (u = false ->
        (exists ds, trace (snd (get self key st)) = trace st ++ ds /\
                    exists d, In d ds /\ lookup (_get_filename self key) d = None) /\
        (_get_filename self key <> _get_filename self _fs_count_file ->
           lookup (_get_filename self key) (files (snd (get self key st))) = None))) /\
  (~ (e <> 0%Z /\ inject_Z e < clock st) -> get self key st = (Ok v, st)) /\
  (e = 0%Z -> forall t, get self key (at_time st t) = (Ok v, at_time st t)) /\
  (forall key' v' st' t,
     _get_filename self key' <> _get_filename self _fs_count_file ->
     fst (set self key' v' (Some 0) st') = Ok true ->
     get self key' (at_time (snd (set self key' v' (Some 0) st')) t) =
     (Ok v', at_time (snd (set self key' v' (Some 0) st')) t)).
Proof.
  intros Hl. unfold get, set, recursion_limit. generalize 98%nat. intros n. repeat split.
  - destruct H as [He Hlt]. exact (proj1 (get_stale self n key st e v u Hl He Hlt)).
  - destruct H as [He Hlt]. exact (proj2 (get_stale self n key st e v u Hl He Hlt) H0).
  - intros Hk. destruct H as [He Hlt]. subst u.
    exact (get_stale_removed self n key st e v Hk Hl He Hlt).
  - intros Hn. destruct (expired_cases e (clock st)) as [H|H]; [contradiction|].
    exact (get_live self (S n) key st e v u Hl H).
  - intros He t. exact (get_live self (S n) key (at_time st t) e v u Hl (or_introl He)).
  - intros key' v' st' t Hk Hok.
    apply (set_then_get self (S n) (S n) key' v' (Some 0) st' t Hk Hok).
    left. unfold normalized_expiry, base_normalize_timeout. reflexivity.
Qed.

Lemma get_expiry_semantics_witness :
  lookup (_get_filename demo_cache "a") (files entry_state) =
    Some (mkfile (record_blob demo_cache (OList [OInt 150; OInt 7])) false) /\
  get demo_cache "a" entry_state = (Ok (OInt 7), entry_state).
Proof.
  assert (H : lookup (_get_filename demo_cache "a") (files entry_state) =
                Some (mkfile (record_blob demo_cache (OList [OInt 150; OInt 7])) false))
    by (vm_compute; reflexivity).
  split; [exact H|].
  apply (proj1 (proj2 (get_expiry_semantics demo_cache "a" entry_state 150 (OInt 7) false H))).
  intros [_ Hlt]. vm_compute in Hlt. discriminate.
Defined.

(** ** C9 *)

(** C9 (amended): the public [get] does not guard the reserved key: when the
    counter file holds the record [(0, v)], [get "__wz_cache_count"] returns
    [v] (the value [_file_count] reads, up to [or 0]) and changes nothing.
    The counter's file name is only kept out of the listing of [_list_dir]. *)
Theorem get_reaches_counter self st v u :
  lookup (_get_filename self _fs_count_file) (files st) =
    Some (mkfile (record_blob self (OList [OInt 0; v])) u) ->
  get self _fs_count_file st = (Ok v, st) /\
  _file_count self st = (Ok (py_or v (OInt 0)), st) /\
  ~ In (_get_filename self _fs_count_file) (listed self (map fst (files st))).
Proof.
  intros Hl. unfold get, _file_count, recursion_limit. generalize 98%nat. intros n.
  repeat split.
  - exact (get_live self (S n) _fs_count_file st 0 v u Hl (or_introl eq_refl)).
  - cbn [_file_count_f]. unfold bind.
    rewrite (get_live self n _fs_count_file st 0 v u Hl (or_introl eq_refl)). reflexivity.
  - unfold listed. rewrite filter_In. intros [_ H]. simpl in H.
    rewrite String.eqb_refl in H. rewrite andb_false_r in H. discriminate.
Qed.

Lemma get_reaches_counter_witness :
  lookup (_get_filename demo_cache _fs_count_file) (files (counter_state 7)) =
    Some (mkfile (record_blob demo_cache (OList [OInt 0; OInt 7])) false) /\
  get demo_cache _fs_count_file (counter_state 7) = (Ok (OInt 7), counter_state 7).
Proof.
  assert (H : lookup (_get_filename demo_cache _fs_count_file) (files (counter_state 7)) =
                Some (mkfile (record_blob demo_cache (OList [OInt 0; OInt 7])) false))
    by (vm_compute; reflexivity).
  split; [exact H|]. exact (proj1 (get_reaches_counter demo_cache (counter_state 7) (OInt 7) false H)).
Defined.

(** C9: a caller's [get "__wz_cache_count"] reads the counter (here 7), and
    a caller's [set "__wz_cache_count" "v"] overwrites the counter file. *)
Lemma get_reaches_counter_counterexample :
  get demo_cache _fs_count_file (counter_state 7) = (Ok (OInt 7), counter_state 7) /\
  lookup counter_name (files (snd (set demo_cache _fs_count_file (OStr "v") None (counter_state 7)))) =
    Some (mkfile (Packed (OList [OInt 400; OStr "v"])) false).
Proof. split; vm_compute; reflexivity. Qed.

(** ** The counter file along the management path *)

Lemma counter_record_step_refl self a : counter_record_step self a a.
Proof. left; reflexivity. Qed.

Lemma counter_record_step_trans self a b c :
  counter_record_step self a b -> counter_record_step self b c -> counter_record_step self a c.
Proof.
  unfold counter_record_step. intros Hab [Hbc|[Hbc|Hbc]]; [subst; exact Hab|auto|auto].
Qed.

Lemma frame_bind_res R x {A B} (m : M A) (k : A -> M B) (r : res A) :
  (forall a, R a a) -> (forall st, m st = (r, st)) ->
  (forall a, r = Ok a -> frame R x (k a)) -> frame R x (bind m k).
Proof.
  intros Hr H Hk st. unfold bind. rewrite H. destruct r as [a|e].
  - exact (Hk a eq_refl st).
  - exists []. simpl. rewrite app_nil_r. auto.
Qed.

(** The [try] block of a management [set] of the count [c]. *)
Lemma frame_counter_set_try_block self c :
  frame (counter_record_step self) (_get_filename self _fs_count_file)
    (set_try_block (_get_filename self _fs_count_file ++ ".__tmp") (_get_filename self _fs_count_file)
       (record_blob self (OList [OInt 0; OInt c]))).
Proof.
  intros st.
  assert (Htmp : (_get_filename self _fs_count_file ++ ".__tmp")%string <> _get_filename self _fs_count_file)
    by (intro E; symmetry in E; exact (filename_not_tmp self _ _ E)).
  destruct (set_try_block_target _ _ (record_blob self (OList [OInt 0; OInt c])) st Htmp)
    as (ds & T & F & C & _ & L).
  exists ds. repeat split; auto.
  - eapply Forall_impl; [|exact F]. intros d [H|[H|[u H]]]; unfold counter_record_step;
      rewrite H; eauto 6.
  - destruct L as [H|[H|[u H]]]; unfold counter_record_step; rewrite H; eauto 6.
Qed.

(** [get], [delete], [_update_count], [_file_count] and the management
    [set] of a count only remove the counter file or replace it by a record
    with expiry 0. *)
Lemma counter_methods self n :
  let x := _get_filename self _fs_count_file in
  (forall k, frame (counter_record_step self) x (get_f self n k)) /\
  (forall k m, frame (counter_record_step self) x (delete_f self n k m)) /\
  (forall d v, frame (counter_record_step self) x (_update_count_f self n d v)) /\
  frame (counter_record_step self) x (_file_count_f self n) /\
  (forall c t, frame (counter_record_step self) x (set_f self n _fs_count_file (OInt c) t true)).
Proof.
  intros x.
  pose proof (counter_record_step_refl self) as Hr.
  pose proof (counter_record_step_trans self) as Ht.
  assert (HN : forall a, counter_record_step self a None) by (intros; right; left; reflexivity).
  induction n as [|n IH].
  { repeat split; intros; apply (frame_raise _ Hr Ht). }
  destruct IH as (IHg & IHd & IHu & IHc & IHs).
  repeat split; intros.
  - cbn [get_f]. frame_walk Hr Ht; auto.
  - cbn [delete_f]. frame_walk Hr Ht; auto. apply (frame_fs_remove_any _ Hr Ht). exact HN.
  - cbn [_update_count_f]. frame_walk Hr Ht; auto.
  - cbn [_file_count_f]. frame_walk Hr Ht; auto.
  - cbn [set_f]. apply (frame_bind _ Hr Ht); [apply (frame_ret _ Hr Ht)|intros _].
    cbv zeta. apply (frame_bind_res _ x _ _ (Ok 0%Z) Hr); [intros st; reflexivity|].
    intros t0 E; injection E as <-.
    apply (frame_bind_res _ x _ _ (if msgpack_encodable (OList [OInt 0; OInt c])
                                   then Ok (record_blob self (OList [OInt 0; OInt c]))
                                   else Exc EncodeError) Hr); [apply serialize_eq|].
    intros data E. destruct (msgpack_encodable _); [|discriminate]. injection E as <-.
    apply (frame_bind _ Hr Ht); [apply (frame_attempt _ Hr Ht), frame_counter_set_try_block|].
    intros r. destruct r; simpl; frame_walk Hr Ht.
Qed.

(** ** C10 *)

(** C10 (amended): every write of the counter through the management path
    [_update_count] forces the expiry to 0: along the run, each snapshot and
    the final directory hold the counter as it was, no counter file, or a
    record [(0, c)]; and a counter record with expiry 0 is read by
    [_file_count] at any time. *)
Theorem update_count_expiry_zero self delta value st :
  let x := _get_filename self _fs_count_file in
  (exists ds,
     trace (snd (_update_count self delta value st)) = trace st ++ ds /\
     Forall (fun d => counter_record_step self (lookup x (files st)) (lookup x d)) ds /\
     counter_record_step self (lookup x (files st))
       (lookup x (files (snd (_update_count self delta value st))))) /\
  (forall v u t, lookup x (files st) = Some (mkfile (record_blob self (OList [OInt 0; v])) u) ->
     _file_count self (at_time st t) = (Ok (py_or v (OInt 0)), at_time st t)).
Proof.
  intros x. split.
  - destruct (proj1 (proj2 (proj2 (counter_methods self recursion_limit))) delta value st)
      as (ds & T & F & L & _).
    exists ds. unfold _update_count. auto.
  - intros v u t Hl. unfold _file_count, recursion_limit. generalize 98%nat. intros n.
    cbn [_file_count_f]. unfold bind.
    rewrite (get_live self n _fs_count_file (at_time st t) 0 v u Hl (or_introl eq_refl)).
    reflexivity.
Qed.

(** C10: the public [set] of the reserved key is not forced to expiry 0:
    [set "__wz_cache_count" 3 5] at time 100 stores expiry 105, and at time
    200 reading the count meets the expired record and yields 0. *)
Lemma update_count_expiry_zero_counterexample :
  lookup counter_name (files (snd (set demo_cache _fs_count_file (OInt 3) (Some 5) init_state))) =
    Some (mkfile (Packed (OList [OInt 105; OInt 3])) false) /\
  fst (_file_count demo_cache
         (at_time (snd (set demo_cache _fs_count_file (OInt 3) (Some 5) init_state)) 200)) =
    Ok (OInt 0).
Proof. split; vm_compute; reflexivity. Qed.

(** ** Temporary names of [set] *)

Lemma string_length_app s t : String.length (s ++ t) = (String.length s + String.length t)%nat.
Proof. induction s; simpl; congruence. Qed.

(** A name ending in ".__tmp" does not end in ".__wz_cache". *)
Lemma tmp_not_transaction s : endswith (s ++ ".__tmp") _fs_transaction_suffix = false.
Proof.
  unfold endswith. rewrite string_length_app.
  destruct (_ <=? _)%nat eqn:Hle; [|reflexivity]. simpl andb.
  destruct (String.eqb _ _) eqn:E; [|reflexivity]. apply String.eqb_eq in E. exfalso.
  apply Nat.leb_le in Hle. simpl in Hle.
  assert (G : String.get 10 (substring (String.length s + 6 - 11)%nat 11 (s ++ ".__tmp")) = Some "e"%char)
    by (rewrite E; reflexivity).
  rewrite substring_correct1 in G by lia.
  replace (10 + (String.length s + 6 - 11))%nat with (5 + String.length s)%nat in G by lia.
  rewrite <- append_correct2 in G. discriminate.
Qed.

(** [_list_dir] keeps the temporary file of any key. *)
Lemma listed_tmp self k names :
  In (_get_filename self k ++ ".__tmp")%string names ->
  In (_get_filename self k ++ ".__tmp")%string (listed self names).
Proof.
  intros Hin. unfold listed. apply filter_In. split; [exact Hin|].
  rewrite tmp_not_transaction. simpl.
  destruct (String.eqb _ _) eqn:E; [|reflexivity].
  apply String.eqb_eq in E. exfalso. symmetry in E. exact (filename_not_tmp self _ _ E).
Qed.

(** The first step of the [try] block of [set] creates the temporary file. *)
Lemma set_try_block_first_snapshot tmp fn data st :
  exists ds f, trace (snd (set_try_block tmp fn data st)) = trace st ++ ds /\
               In (put tmp f (files st)) ds.
Proof.
  cbv [set_try_block fs_write_file fs_exists fs_remove fs_replace bind ret raise
       get_files set_files]; simpl.
  set (f := mkfile Partial match lookup tmp (files st) with
                           | Some f => undeletable f | None => false end).
  split_matches; eexists; exists f; (split; [rewrite <- ?app_assoc; reflexivity|]); simpl; auto.
Qed.

Lemma in_names_put n f d : In n (map fst (put n f d)).
Proof.
  induction d as [|[m g] d IH]; simpl; [auto|].
  destruct (String.eqb n m); simpl; auto.
Qed.

(** ** C2 *)

(** C2: the temporary file of [set] is visible to [_list_dir]: for every key,
    the first step of the write of [set] creates "<filename>.__tmp", which
    does not carry [_fs_transaction_suffix], and a listing taken then
    contains it; and when [os.remove] of the old file fails, [set] returns
    [False] and leaves the temporary file behind, listed by [_list_dir]. *)
Theorem set_tmp_listed :
  (forall self key data st,
     exists d, In d (trace (snd (set_try_block (_get_filename self key ++ ".__tmp")
                                              (_get_filename self key) data st))) /\
               In (_get_filename self key ++ ".__tmp")%string (listed self (map fst d))) /\
  fst (set demo_cache "a" (OInt 2) None locked_state) = Ok false /\
  fst (_list_dir demo_cache (snd (set demo_cache "a" (OInt 2) None locked_state))) =
    Ok ["61"; "61.__tmp"].
Proof.
  split; [|split; vm_compute; reflexivity].
  intros self key data st.
  destruct (set_try_block_first_snapshot (_get_filename self key ++ ".__tmp")
              (_get_filename self key) data st) as (ds & f & T & Hin).
  exists (put (_get_filename self key ++ ".__tmp") f (files st)). split.
  - rewrite T. apply in_or_app. right. exact Hin.
  - apply listed_tmp, in_names_put.
Qed.

(** ** C3 *)

(** C3 (amended): seen from the file of a key other than the counter's,
    every directory state during [set] holds the old file, no file (the
    [os.remove] of the old file, done on every platform before
    [os.replace]), or the complete new record; never the partly written
    bytes, which go to the fixed name "<filename>.__tmp".  After a
    successful [set] the file holds the new record. *)
Theorem set_write_phases self key value timeout st :
  _get_filename self key <> _get_filename self _fs_count_file ->
  let x := _get_filename self key in
  let newblob := record_blob self (OList [OInt (normalized_expiry self timeout (clock st)); value]) in
  exists ds,
    trace (snd (set self key value timeout st)) = trace st ++ ds /\
    Forall (fun d => lookup x d = lookup x (files st) \/ lookup x d = None \/
                     exists u, lookup x d = Some (mkfile newblob u)) ds /\
    (fst (set self key value timeout st) = Ok true ->
       exists u, lookup x (files (snd (set self key value timeout st))) = Some (mkfile newblob u)).
Proof.
  intros Hk x newblob. unfold set, recursion_limit. generalize 99%nat. intros n.
  destruct (set_target self n key value timeout st Hk) as (ds & T & F & _ & O).
  exists ds. auto.
Qed.

Lemma set_write_phases_witness :
  _get_filename demo_cache "a" <> _get_filename demo_cache _fs_count_file /\
  exists ds,
    trace (snd (set demo_cache "a" (OInt 8) None entry_state)) = trace entry_state ++ ds /\
    Forall (fun d => lookup "61" d = lookup "61" (files entry_state) \/ lookup "61" d = None \/
                     exists u, lookup "61" d =
                       Some (mkfile (record_blob demo_cache (OList [OInt 400; OInt 8])) u)) ds /\
    (fst (set demo_cache "a" (OInt 8) None entry_state) = Ok true ->
       exists u, lookup "61" (files (snd (set demo_cache "a" (OInt 8) None entry_state))) =
                 Some (mkfile (record_blob demo_cache (OList [OInt 400; OInt 8])) u)).
Proof.
  assert (H : _get_filename demo_cache "a" <> _get_filename demo_cache _fs_count_file)
    by (apply String.eqb_neq; vm_compute; reflexivity).
  split; [exact H|]. exact (set_write_phases demo_cache "a" (OInt 8) None entry_state H).
Defined.

(** C3: overwriting the entry of "a" passes through a directory state with
    no file for "a", and the bytes are first written to the fixed name
    "61.__tmp". *)
Lemma set_write_phases_counterexample :
  lookup "61" (files entry_state) <> None /\
  existsb (fun d => match lookup "61" d with None => true | Some _ => false end)
          (trace (snd (set demo_cache "a" (OInt 8) None entry_state))) = true /\
  existsb (fun d => match lookup "61.__tmp" d with Some (mkfile Partial _) => true | _ => false end)
          (trace (snd (set demo_cache "a" (OInt 8) None entry_state))) = true.
Proof. split; [discriminate|split; vm_compute; reflexivity]. Qed.

(** ** C7 *)

Lemma add_f_eq self fuel key value timeout st :
  add_f self fuel key value timeout st =
  match lookup (_get_filename self key) (files st) with
  | None => set_f self fuel key value timeout false st
  | Some _ => (Ok false, st)
  end.
Proof.
  unfold add_f, bind, fs_exists, get_files, ret. simpl.
  destruct (lookup _ _); reflexivity.
Qed.

(** C7 (amended): for a key other than the counter's, after a successful
    [add k v1], a later [add k v2] (at any time [t']) returns [False] and
    changes nothing, and [get k] at [t'] yields [v1] as long as [t'] is no
    later than the expiry stored by the first [add] (or that expiry is 0). *)
Theorem add_then_add self key v1 v2 t1 t2 st t' :
  _get_filename self key <> _get_filename self _fs_count_file ->
  fst (add self key v1 t1 st) = Ok true ->
  add self key v2 t2 (at_time (snd (add self key v1 t1 st)) t') =
    (Ok false, at_time (snd (add self key v1 t1 st)) t') /\
  ((normalized_expiry self t1 (clock st) = 0%Z \/
    t' <= inject_Z (normalized_expiry self t1 (clock st))) ->
   get self key (at_time (snd (add self key v1 t1 st)) t') =
     (Ok v1, at_time (snd (add self key v1 t1 st)) t')).
Proof.
  unfold add, get, recursion_limit. generalize 99%nat. intros n Hk Hok.
  rewrite !add_f_eq in *.
  destruct (lookup (_get_filename self key) (files st)) eqn:L; [discriminate|].
  destruct (set_target self n key v1 t1 st Hk) as (ds & _ & _ & _ & O).
  destruct (O Hok) as [u Hl]. split.
  - cbn [files at_time]. rewrite Hl. reflexivity.
  - intros He. exact (set_then_get self n n key v1 t1 st t' Hk Hok He).
Qed.

Lemma add_then_add_witness :
  (_get_filename demo_cache "a" <> _get_filename demo_cache _fs_count_file /\
   fst (add demo_cache "a" (OInt 1) None init_state) = Ok true) /\
  add demo_cache "a" (OInt 2) None (at_time (snd (add demo_cache "a" (OInt 1) None init_state)) 100) =
    (Ok false, at_time (snd (add demo_cache "a" (OInt 1) None init_state)) 100).
Proof.
  assert (H1 : _get_filename demo_cache "a" <> _get_filename demo_cache _fs_count_file)
    by (apply String.eqb_neq; vm_compute; reflexivity).
  assert (H2 : fst (add demo_cache "a" (OInt 1) None init_state) = Ok true)
    by (vm_compute; reflexivity).
  split; [auto|].
  exact (proj1 (add_then_add demo_cache "a" (OInt 1) (OInt 2) None None init_state 100 H1 H2)).
Defined.

(** C7: once the first value has expired, a second [add] still fails (the
    file exists) but [get] no longer yields the first value. *)
Lemma add_then_add_counterexample :
  fst (add demo_cache "a" (OInt 1) None init_state) = Ok true /\
  fst (add demo_cache "a" (OInt 2) None (at_time (snd (add demo_cache "a" (OInt 1) None init_state)) 1000))
    = Ok false /\
  fst (get demo_cache "a"
         (snd (add demo_cache "a" (OInt 2) None
                 (at_time (snd (add demo_cache "a" (OInt 1) None init_state)) 1000)))) = Ok ONone.
Proof. split; [|split]; vm_compute; reflexivity. Qed.

(** ** Clearing the directory *)

Lemma distinct_names_NoDup l : distinct_names l = true -> NoDup l.
Proof.
  induction l as [|n l IH]; simpl; intros H; constructor.
  - apply andb_true_iff in H as [H _]. apply negb_true_iff in H. intros Hin.
    assert (E : existsb (String.eqb n) l = true)
      by (apply existsb_exists; exists n; split; [exact Hin|apply String.eqb_refl]).
    congruence.
  - apply andb_true_iff in H as [_ H]. auto.
Qed.

Lemma lookup_remove_all_notin m l : forall d,
  ~ In m l -> lookup m (remove_all l d) = lookup m d.
Proof.
  induction l as [|n l IH]; intros d H; simpl; [reflexivity|].
  rewrite IH by (intro; apply H; right; assumption). rewrite lookup_remove_name.
  destruct (String.eqb m n) eqn:E; [|reflexivity].
  apply String.eqb_eq in E. subst. exfalso. apply H. left. reflexivity.
Qed.

Lemma lookup_remove_all_in m l : forall d, In m l -> lookup m (remove_all l d) = None.
Proof.
  induction l as [|n l IH]; intros d H; simpl; [contradiction|].
  destruct (in_dec string_dec m l) as [Hin|Hin]; [apply IH; exact Hin|].
  destruct H as [<-|H]; [|contradiction].
  rewrite lookup_remove_all_notin by exact Hin.
  rewrite lookup_remove_name, String.eqb_refl. reflexivity.
Qed.

Lemma in_names_lookup m d f : lookup m d = Some f -> In m (map fst d).
Proof.
  induction d as [|[n g] d IH]; simpl; [discriminate|].
  destruct (String.eqb m n) eqn:E; [apply String.eqb_eq in E; auto|auto].
Qed.

Lemma removable_remove_name d n m :
  m <> n -> removable (remove_name n d) m = removable d m.
Proof.
  intros H. unfold removable. rewrite lookup_remove_name.
  destruct (String.eqb m n) eqn:E; [apply String.eqb_eq in E; contradiction|reflexivity].
Qed.

(** The loop of [clear] over names that can all be removed. *)
Lemma clear_loop_removes self fuel : forall pre l st,
  NoDup pre -> forallb (removable (files st)) pre = true ->
  exists ds, clear_loop self fuel (pre ++ l) st =
             clear_loop self fuel l (mkstate (remove_all pre (files st)) (clock st) (trace st ++ ds)).
Proof.
  induction pre as [|n pre IH]; intros l st Hnd Hr.
  - exists []. rewrite app_nil_r. destruct st; reflexivity.
  - simpl in Hr. apply andb_true_iff in Hr as [Hn Hr]. inversion Hnd as [|? ? Hnin Hnd']; subst.
    unfold removable in Hn at 1.
    destruct (lookup n (files st)) as [[c u]|] eqn:L; [|discriminate].
    destruct u; [discriminate|].
    set (st1 := mkstate (remove_name n (files st)) (clock st) (trace st ++ [remove_name n (files st)])).
    assert (E : clear_loop self fuel ((n :: pre) ++ l) st = clear_loop self fuel (pre ++ l) st1).
    { simpl. cbv [bind attempt fs_remove get_files set_files ret raise]. simpl. rewrite L. reflexivity. }
    assert (Hr1 : forallb (removable (files st1)) pre = true).
    { apply forallb_forall. intros m Hm. simpl. rewrite removable_remove_name by congruence.
      exact (proj1 (forallb_forall _ _) Hr m Hm). }
    destruct (IH l st1 Hnd' Hr1) as [ds E'].
    exists ([remove_name n (files st)] ++ ds). rewrite E, E'. simpl. rewrite <- app_assoc. reflexivity.
Qed.

(** A [clear] loop that returns [True] removed every name it was given. *)
Lemma clear_loop_true_removable self fuel : forall l st,
  NoDup l -> fst (clear_loop self fuel l st) = Ok true ->
  forallb (removable (files st)) l = true.
Proof.
  assert (Hf : forall (m : M unit) st, fst ((m ;;; ret false) st) <> Ok true).
  { intros m st. unfold bind, ret. destruct (m st) as [[?|?] ?]; discriminate. }
  induction l as [|n l IH]; intros st Hnd H; [reflexivity|].
  inversion Hnd as [|? ? Hnin Hnd']; subst.
  cbn [clear_loop] in H. cbv [bind attempt fs_remove get_files set_files ret raise] in H.
  simpl in H. simpl. unfold removable at 1.
  destruct (lookup n (files st)) as [[c u]|] eqn:L.
  - destruct u; simpl in H.
    + exfalso. exact (Hf _ _ H).
    + simpl. eapply forallb_forall. intros m Hm.
      assert (Hmn : m <> n) by congruence.
      pose proof (proj1 (forallb_forall _ _) (IH _ Hnd' H) m Hm) as Hm'.
      simpl in Hm'. rewrite removable_remove_name in Hm' by exact Hmn. exact Hm'.
  - simpl in H. exfalso. exact (Hf _ _ H).
Qed.

(** The [try] block of [set] completes when the target can be replaced. *)
Lemma set_try_block_ok tmp x data st :
  tmp <> x -> (forall f, lookup x (files st) = Some f -> undeletable f = false) ->
  exists b, fst (set_try_block tmp x data st) = Ok b.
Proof.
  intros Ht Hx.
  assert (Ex : String.eqb x tmp = false) by (apply String.eqb_neq; congruence).
  assert (Et : String.eqb tmp x = false) by (apply String.eqb_neq; congruence).
  set (u0 := match lookup tmp (files st) with Some f => undeletable f | None => false end).
  set (d1 := put tmp (mkfile Partial u0) (files st)).
  set (d2 := put tmp (mkfile data u0) d1).
  assert (L2x : lookup x d2 = lookup x (files st)) by (unfold d2, d1; rewrite !lookup_put, Ex; reflexivity).
  assert (L2t : lookup tmp d2 = Some (mkfile data u0)) by (unfold d2; rewrite lookup_put, String.eqb_refl; reflexivity).
  cbv [set_try_block fs_write_file fs_exists fs_remove fs_replace bind ret raise get_files set_files].
  simpl. fold u0 d1 d2.
  destruct (lookup x (files st)) as [[c u]|] eqn:Lx.
  - specialize (Hx _ eq_refl). simpl in Hx. subst u.
    repeat progress (simpl; rewrite ?L2x, ?L2t, ?Lx).
    rewrite !lookup_remove_name, Et, L2t, String.eqb_refl. simpl. eauto.
  - repeat progress (simpl; rewrite ?L2x, ?L2t, ?Lx). eauto.
Qed.

(** [_update_count(value=c)] with a non-zero threshold writes the record
    [(0, c)] over a counter file that can be replaced. *)
Lemma update_count_value self n c st :
  _threshold self <> 0%Z -> msgpack_encodable (OInt c) = true ->
  (forall f, lookup (_get_filename self _fs_count_file) (files st) = Some f -> undeletable f = false) ->
  fst (_update_count_f self (S (S n)) None (Some c) st) = Ok tt /\
  exists u, lookup (_get_filename self _fs_count_file)
              (files (snd (_update_count_f self (S (S n)) None (Some c) st))) =
            Some (mkfile (record_blob self (OList [OInt 0; OInt c])) u).
Proof.
  intros Hth Hc Hx.
  assert (Htmp : (_get_filename self _fs_count_file ++ ".__tmp")%string <> _get_filename self _fs_count_file)
    by (intro E; symmetry in E; exact (filename_not_tmp self _ _ E)).
  cbn [_update_count_f set_f]. apply Z.eqb_neq in Hth. rewrite Hth.
  cbv [bind ret attempt value_or_0]. rewrite (normalize_timeout_eq self (Some 0) st).
  rewrite serialize_eq. simpl msgpack_encodable. simpl in Hc. rewrite Hc. cbv beta iota delta [andb].
  replace (normalized_expiry self (Some 0) (clock st)) with 0%Z by reflexivity.
  destruct (set_try_block_ok _ _ (record_blob self (OList [OInt 0; OInt c])) st Htmp Hx) as [b Hb].
  destruct (set_try_block_target _ _ (record_blob self (OList [OInt 0; OInt c])) st Htmp)
    as (_ & _ & _ & _ & O & _).
  destruct (O b Hb) as [u Hu].
  destruct (set_try_block _ _ _ st) as [r st1]. simpl in Hb, Hu. subst r. simpl.
  split; [reflexivity|]. exists u. exact Hu.
Qed.

(** [get] on a key without a file returns [None] and changes nothing. *)
Lemma get_missing self n key st :
  lookup (_get_filename self key) (files st) = None ->
  get_f self (S n) key st = (Ok ONone, st).
Proof.
  intros Hl. cbn [get_f]. cbv [catch bind fs_read get_files ret raise]. simpl.
  rewrite Hl. reflexivity.
Qed.

Lemma NoDup_app_disjoint {A} (l1 l2 : list A) a :
  NoDup (l1 ++ l2) -> In a l2 -> ~ In a l1.
Proof.
  induction l1 as [|b l1 IH]; simpl; intros H Ha; [tauto|].
  inversion H as [|? ? Hb Hnd]; subst. intros [<-|Hin].
  - apply Hb. apply in_or_app. right. exact Ha.
  - exact (IH Hnd Ha Hin).
Qed.

Lemma length_remove_name n d : (length (remove_name n d) <= length d)%nat.
Proof.
  induction d as [|[m f] d IH]; simpl; [lia|].
  destruct (String.eqb n m); simpl; lia.
Qed.

Lemma length_remove_all l : forall d, (length (remove_all l d) <= length d)%nat.
Proof.
  induction l as [|n l IH]; intros d; simpl; [lia|].
  specialize (IH (remove_name n d)). pose proof (length_remove_name n d). lia.
Qed.

Lemma listed_not_counter self m names :
  In m (listed self names) -> m <> _get_filename self _fs_count_file.
Proof.
  unfold listed. rewrite filter_In. intros [_ H] E. subst m. simpl in H.
  rewrite String.eqb_refl, andb_false_r in H. discriminate.
Qed.

Lemma py_or_int_0 z : py_or (OInt z) (OInt 0) = OInt z.
Proof. unfold py_or, truthy. destruct (z =? 0)%Z eqn:E; [apply Z.eqb_eq in E; subst|]; reflexivity. Qed.

Lemma clear_eq self fuel st :
  clear_f self fuel st = clear_loop self fuel (listed self (map fst (files st))) st.
Proof. unfold clear_f, bind. rewrite _list_dir_eq. reflexivity. Qed.

Lemma clear_loop_nil self fuel st :
  clear_loop self fuel [] st =
  (match fst (_update_count_f self fuel None (Some 0%Z) st) with
   | Ok _ => Ok true | Exc e => Exc e end,
   snd (_update_count_f self fuel None (Some 0%Z) st)).
Proof.
  cbn [clear_loop]. unfold bind, ret.
  destruct (_update_count_f self fuel None (Some 0%Z) st) as [[?|?] ?]; reflexivity.
Qed.

(** An [os.remove] that fails ends the loop of [clear]. *)
Lemma clear_loop_fail self fuel n rest st f :
  lookup n (files st) = Some f -> undeletable f = true ->
  let len := Z.of_nat (length (listed self (map fst (files st)))) in
  clear_loop self fuel (n :: rest) st =
  (match fst (_update_count_f self fuel None (Some len) st) with
   | Ok _ => Ok false | Exc e => Exc e end,
   snd (_update_count_f self fuel None (Some len) st)).
Proof.
  intros L U len. cbn [clear_loop].
  cbv [bind attempt fs_remove get_files raise ret]. rewrite L. cbv beta iota.
  rewrite U. cbv beta iota delta [is_oserror]. rewrite _list_dir_eq. cbv beta iota. fold len.
  destruct (_update_count_f self fuel None (Some len) st) as [[?|?] ?]; reflexivity.
Qed.

(** [_update_count(value=c)] returns normally. *)
Lemma update_count_value_ok self n c st :
  msgpack_encodable (OInt c) = true ->
  fst (_update_count_f self (S (S n)) None (Some c) st) = Ok tt.
Proof.
  intros Hc. cbn [_update_count_f set_f].
  destruct (_threshold self =? 0)%Z; [reflexivity|].
  cbv [bind ret attempt value_or_0]. rewrite (normalize_timeout_eq self (Some 0) st).
  rewrite serialize_eq. simpl msgpack_encodable. simpl in Hc. rewrite Hc.
  cbv beta iota delta [andb].
  destruct (set_try_block _ _ _ st) as [[?|?] ?]; reflexivity.
Qed.

(** ** C8 *)

(** C8 (amended): [clear] on a directory listing no name twice.  When every
    listed entry can be removed, [clear] returns [True].  After a [clear]
    that returns [True], [get] yields no value for every key whose file name
    differs from the counter's, and, with a non-zero threshold and a counter
    file that can be replaced, the count reads 0.  When the listed entries
    are [pre ++ n :: post], those of [pre] can be removed and [n] cannot,
    [clear] returns [False]: the entries of [pre] are gone, [n] and those of
    [post] are as they were (apart from the counter's temporary file, which
    the count update reuses), and the count reads the number of entries
    [_list_dir] finds after the removals. *)
Theorem clear_behaviour self st :
  distinct_names (map fst (files st)) = true ->
  let names := listed self (map fst (files st)) in
  (forallb (removable (files st)) names = true -> fst (clear self st) = Ok true) /\
  (fst (clear self st) = Ok true ->
     (forall key, _get_filename self key <> _get_filename self _fs_count_file ->
        fst (get self key (snd (clear self st))) = Ok ONone) /\
     (_threshold self <> 0%Z ->
      (forall g, lookup (_get_filename self _fs_count_file) (files st) = Some g ->
                 undeletable g = false) ->
      fst (_file_count self (snd (clear self st))) = Ok (OInt 0))) /\
  (forall pre n post f,
     names = pre ++ n :: post ->
     forallb (removable (files st)) pre = true ->
     lookup n (files st) = Some f -> undeletable f = true ->
     (Z.of_nat (length (files st)) < 2 ^ 64)%Z ->
     fst (clear self st) = Ok false /\
     (forall m, In m pre -> m <> (_get_filename self _fs_count_file ++ ".__tmp")%string ->
        lookup m (files (snd (clear self st))) = None) /\
     (forall m, In m (n :: post) -> m <> (_get_filename self _fs_count_file ++ ".__tmp")%string ->
        lookup m (files (snd (clear self st))) = lookup m (files st)) /\
     (_threshold self <> 0%Z ->
      (forall g, lookup (_get_filename self _fs_count_file) (files st) = Some g ->
                 undeletable g = false) ->
      fst (_file_count self (snd (clear self st))) =
        Ok (OInt (Z.of_nat (length (listed self (map fst (remove_all pre (files st))))))))).
Proof.
  intros Hd names.
  assert (Hnd : NoDup names) by (apply NoDup_filter, distinct_names_NoDup; exact Hd).
  assert (Hcn : forall m, In m names -> m <> _get_filename self _fs_count_file)
    by (intros m; apply listed_not_counter).
  set (x := _get_filename self _fs_count_file).
  assert (Hx2 : forall key, _get_filename self key <> (x ++ ".__tmp")%string)
    by (intros key; apply filename_not_tmp).
  unfold clear, get, _file_count, recursion_limit. generalize 98%nat. intros k.
  rewrite !clear_eq. fold names.
  split; [|split].
  - (* full success *)
    intros Hr. destruct (clear_loop_removes self (S (S k)) names [] st Hnd Hr) as [ds E].
    rewrite app_nil_r in E. rewrite E, clear_loop_nil.
    rewrite update_count_value_ok by reflexivity. reflexivity.
  - (* after a successful clear *)
    intros Hok.
    pose proof (clear_loop_true_removable self _ names st Hnd Hok) as Hr.
    destruct (clear_loop_removes self (S (S k)) names [] st Hnd Hr) as [ds E].
    rewrite app_nil_r in E. rewrite E, clear_loop_nil. cbn [snd].
    set (st' := mkstate (remove_all names (files st)) (clock st) (trace st ++ ds)).
    split.
    + (* no key has a file *)
      intros key Hk.
      destruct (untouched_methods self _ Hk (Hx2 key) (S (S k))) as (_ & _ & Hu & _).
      destruct (Hu None (Some 0%Z) st') as (ds' & _ & _ & L & _).
      rewrite (get_missing self (S k) key _); [reflexivity|]. rewrite <- L. simpl.
      destruct (in_dec string_dec (_get_filename self key) names) as [Hin|Hin].
      * apply lookup_remove_all_in. exact Hin.
      * rewrite lookup_remove_all_notin by exact Hin.
        destruct (lookup (_get_filename self key) (files st)) as [g|] eqn:Lg; [|reflexivity].
        exfalso. apply Hin. apply listed_filename; [exact Hk|]. exact (in_names_lookup _ _ _ Lg).
    + (* the count reads 0 *)
      intros Hth Hc.
      assert (Hc' : forall g, lookup x (files st') = Some g -> undeletable g = false).
      { intros g. simpl. rewrite lookup_remove_all_notin; [apply Hc|].
        intros Hin. exact (Hcn x Hin eq_refl). }
      destruct (update_count_value self k 0 st' Hth eq_refl Hc') as [_ [u Hl]].
      cbn [_file_count_f]. unfold bind.
      rewrite (get_live self k _fs_count_file _ 0 (OInt 0) u Hl (or_introl eq_refl)). reflexivity.
  - (* a removal fails *)
    intros pre n post f Hn Hpre L U Hlen.
    assert (Hnd' : NoDup (pre ++ n :: post)) by (rewrite <- Hn; exact Hnd).
    assert (Hnotpre : forall m, In m (n :: post) -> ~ In m pre)
      by (intros m Hm; exact (NoDup_app_disjoint _ _ _ Hnd' Hm)).
    assert (Hinn : forall m, In m pre \/ In m (n :: post) -> In m names)
      by (intros m Hm; rewrite Hn; apply in_or_app; exact Hm).
    destruct (clear_loop_removes self (S (S k)) pre (n :: post) st
                (NoDup_app_remove_r _ _ Hnd') Hpre) as [ds E].
    set (st' := mkstate (remove_all pre (files st)) (clock st) (trace st ++ ds)) in E.
    assert (L' : lookup n (files st') = Some f).
    { simpl. rewrite lookup_remove_all_notin; [exact L|]. apply Hnotpre. left. reflexivity. }
    set (len := Z.of_nat (length (listed self (map fst (remove_all pre (files st)))))).
    assert (Hlen' : msgpack_encodable (OInt len) = true).
    { unfold msgpack_encodable, len. apply andb_true_intro. split.
      - apply Z.leb_le. lia.
      - apply Z.ltb_lt.
        pose proof (filter_length_le (fun fn => negb (endswith fn _fs_transaction_suffix)
                      && negb (existsb (String.eqb fn) [_get_filename self _fs_count_file]))
                      (map fst (remove_all pre (files st)))) as H1.
        rewrite length_map in H1. pose proof (length_remove_all pre (files st)) as H2.
        unfold listed. lia. }
    assert (Eloop : clear_loop self (S (S k)) names st =
                    (match fst (_update_count_f self (S (S k)) None (Some len) st') with
                     | Ok _ => Ok false | Exc e => Exc e end,
                     snd (_update_count_f self (S (S k)) None (Some len) st'))).
    { rewrite Hn, E. exact (clear_loop_fail self _ n post st' f L' U). }
    rewrite Eloop. cbn [fst snd].
    assert (Hkeep : forall m, m <> (x ++ ".__tmp")%string -> In m names ->
              lookup m (files (snd (_update_count_f self (S (S k)) None (Some len) st'))) =
              lookup m (remove_all pre (files st))).
    { intros m Hmt Hm.
      destruct (untouched_methods self m (Hcn m Hm) Hmt (S (S k))) as (_ & _ & Hu & _).
      destruct (Hu None (Some len) st') as (ds' & _ & _ & Lm & _). rewrite <- Lm. reflexivity. }
    repeat split.
    + rewrite update_count_value_ok by exact Hlen'. reflexivity.
    + intros m Hm Hmt. rewrite Hkeep by auto. apply lookup_remove_all_in. exact Hm.
    + intros m Hm Hmt. rewrite Hkeep by auto. apply lookup_remove_all_notin. auto.
    + intros Hth Hc.
      assert (Hc' : forall g, lookup x (files st') = Some g -> undeletable g = false).
      { intros g. simpl. rewrite lookup_remove_all_notin; [apply Hc|].
        intros Hin. exact (Hcn x (Hinn x (or_introl Hin)) eq_refl). }
      destruct (update_count_value self k len st' Hth Hlen' Hc') as [_ [u Hl]].
      cbn [_file_count_f]. unfold bind.
      rewrite (get_live self k _fs_count_file _ 0 (OInt len) u Hl (or_introl eq_refl)).
      rewrite py_or_int_0. reflexivity.
Qed.

Lemma clear_behaviour_witness :
  distinct_names (map fst (files entry_state)) = true /\
  fst (clear demo_cache entry_state) = Ok true.
Proof.
  assert (H : distinct_names (map fst (files entry_state)) = true) by (vm_compute; reflexivity).
  split; [exact H|].
  apply (proj1 (clear_behaviour demo_cache entry_state H)). vm_compute. reflexivity.
Defined.

(** C8: after [set "__wz_cache_count" "v"] and a successful [clear], [get]
    of that key yields the reset count 0; and with [threshold=0] a counter
    file left in the directory is not reset, so the count still reads 5. *)
Lemma clear_behaviour_counterexample :
  fst (clear demo_cache (snd (set demo_cache _fs_count_file (OStr "v") None init_state))) = Ok true /\
  fst (get demo_cache _fs_count_file
         (snd (clear demo_cache (snd (set demo_cache _fs_count_file (OStr "v") None init_state)))))
    = Ok (OInt 0) /\
  fst (clear unbounded_cache (counter_state 5)) = Ok true /\
  fst (_file_count unbounded_cache (snd (clear unbounded_cache (counter_state 5)))) = Ok (OInt 5).
Proof. repeat split; vm_compute; reflexivity. Qed.

(** ** The eviction sweep *)

(** One step of the loop of [_prune]. *)
Lemma prune_loop_cons self now n rest idx nr st :
  exists k, prune_loop self now (n :: rest) idx nr st =
    prune_loop self now rest (S idx) k
      (match lookup n (files st) with
       | Some f => if sweep_decision self now f idx
                   then mkstate (remove_name n (files st)) (clock st)
                          (trace st ++ [remove_name n (files st)])
                   else st
       | None => st
       end).
Proof.
  cbn [prune_loop].
  cbv [bind attempt fs_read fs_remove get_files ret raise set_files _deserialize unpack2
       prune_remove sweep_decision record_expiry andb orb negb].
  repeat (cbn beta iota zeta delta [fst snd];
          repeat match goal with
                 | H : ?x = _ |- context [?x] => rewrite H
                 end;
          match goal with
          | |- context [match ?x with _ => _ end] =>
              lazymatch type of x with
              | (_ * _)%type => fail
              | _ => lazymatch x with
                     | context [match _ with _ => _ end] => fail
                     | _ => let E := fresh "E" in destruct x eqn:E
                     end
              end
          end);
  eexists; reflexivity.
Qed.

Lemma swept_ext self now d1 d2 : forall l idx,
  (forall m, In m l -> lookup m d1 = lookup m d2) ->
  swept self now d1 l idx = swept self now d2 l idx.
Proof.
  induction l as [|n l IH]; intros idx H; [reflexivity|].
  cbn [swept]. rewrite (H n (or_introl eq_refl)).
  rewrite (IH (S idx)); [reflexivity|]. intros m Hm. apply H. right. exact Hm.
Qed.

Lemma swept_incl self now d : forall l idx m, In m (swept self now d l idx) -> In m l.
Proof.
  induction l as [|n l IH]; intros idx m H; [contradiction|].
  cbn [swept] in H. apply in_app_or in H. destruct H as [H|H].
  - destruct (lookup n d) as [f|]; [destruct (sweep_decision self now f idx)|];
      simpl in H; [destruct H as [<-|[]]; left; reflexivity|contradiction|contradiction].
  - right. exact (IH _ _ H).
Qed.

(** The loop of [_prune] over distinct names removes exactly the names
    [swept] selects, each judged on the directory as it was before the
    loop. *)
Lemma prune_loop_eq self now : forall entries idx nr st, NoDup entries ->
  exists ds k, prune_loop self now entries idx nr st =
    (Ok k, mkstate (remove_all (swept self now (files st) entries idx) (files st))
                   (clock st) (trace st ++ ds)).
Proof.
  induction entries as [|n rest IH]; intros idx nr st Hnd.
  - exists [], nr. destruct st. cbn. rewrite app_nil_r. reflexivity.
  - inversion Hnd as [|? ? Hn Hnd']; subst.
    destruct (prune_loop_cons self now n rest idx nr st) as [k Hk]. rewrite Hk.
    cbn [swept].
    destruct (lookup n (files st)) as [f|] eqn:Hl;
      [destruct (sweep_decision self now f idx) eqn:Hd|].
    + destruct (IH (S idx) k (mkstate (remove_name n (files st)) (clock st)
                                 (trace st ++ [remove_name n (files st)])) Hnd')
        as (ds & k' & E).
      rewrite E. cbn [files clock trace].
      exists ([remove_name n (files st)] ++ ds), k'. rewrite <- app_assoc. cbn [app remove_all].
      rewrite (swept_ext self now (remove_name n (files st)) (files st)); [reflexivity|].
      intros m Hm. rewrite lookup_remove_name.
      destruct (String.eqb m n) eqn:E2; [|reflexivity].
      apply String.eqb_eq in E2. subst m. contradiction.
    + destruct (IH (S idx) k st Hnd') as (ds & k' & E). exists ds, k'. exact E.
    + destruct (IH (S idx) k st Hnd') as (ds & k' & E). exists ds, k'. exact E.
Qed.

Lemma file_count_record self k st c u :
  lookup (_get_filename self _fs_count_file) (files st) =
    Some (mkfile (record_blob self (OList [OInt 0; OInt c])) u) ->
  _file_count_f self (S (S k)) st = (Ok (OInt c), st).
Proof.
  intros Hl. cbn [_file_count_f]. unfold bind.
  rewrite (get_live self k _fs_count_file st 0 (OInt c) u Hl (or_introl eq_refl)).
  cbv [ret]. rewrite py_or_int_0. reflexivity.
Qed.

(** ** C5 *)

(** C5 (corrected). [_prune] does nothing when [threshold = 0] or when the
    count the counter entry reads is at most [threshold]; any other
    threshold, a negative one included, starts the sweep when the count
    exceeds it. The sweep goes through the entries [_list_dir] lists, in
    order, and removes exactly those [swept] selects: the entry at position
    [idx] goes when its record decodes to an int expiry [e] with [e <> 0]
    and [e <= now], or when [idx] is a multiple of 3, and when the process
    may remove it. Entries that do not decode stay, and the sweep goes on.
    Afterwards the counter holds the number of entries a fresh [_list_dir]
    finds. *)
Theorem prune_sweep self st c u :
  distinct_names (map fst (files st)) = true ->
  lookup (_get_filename self _fs_count_file) (files st) =
    Some (mkfile (record_blob self (OList [OInt 0; OInt c])) u) ->
  let names := listed self (map fst (files st)) in
  let removed := swept self (clock st) (files st) names 0 in
  ((_threshold self = 0%Z \/ (c <= _threshold self)%Z) -> _prune self st = (Ok tt, st)) /\
  (_threshold self <> 0%Z -> (_threshold self < c)%Z ->
     (Z.of_nat (length (files st)) < 2 ^ 64)%Z ->
     fst (_prune self st) = Ok tt /\
     (forall m, In m names -> m <> (_get_filename self _fs_count_file ++ ".__tmp")%string ->
        lookup m (files (snd (_prune self st))) =
        if existsb (String.eqb m) removed then None else lookup m (files st)) /\
     (u = false ->
        fst (_file_count self (snd (_prune self st))) =
        Ok (OInt (Z.of_nat (length (listed self (map fst (remove_all removed (files st))))))))).
Proof.
  intros Hd Hc names removed.
  assert (Hnd : NoDup names) by (apply NoDup_filter, distinct_names_NoDup; exact Hd).
  assert (Hcn : forall m, In m names -> m <> _get_filename self _fs_count_file)
    by (intros m; apply listed_not_counter).
  set (x := _get_filename self _fs_count_file) in *.
  unfold _prune, _file_count, recursion_limit. generalize 97%nat. intros k.
  split.
  - intros [Ht|Ht].
    + cbn [_prune_f]. rewrite Ht. reflexivity.
    + cbn [_prune_f]. destruct (_threshold self =? 0)%Z; [reflexivity|].
      unfold bind at 1. rewrite (file_count_record self k st c u Hc).
      cbv [py_gt_int ret]. apply Z.ltb_ge in Ht. rewrite Ht. reflexivity.
  - intros Hth Ht Hlen.
    destruct (prune_loop_eq self (clock st) names 0 0 st Hnd) as (ds & nr & E).
    fold removed in E.
    set (st' := mkstate (remove_all removed (files st)) (clock st) (trace st ++ ds)) in E.
    set (len := Z.of_nat (length (listed self (map fst (remove_all removed (files st)))))).
    assert (Hlen' : msgpack_encodable (OInt len) = true).
    { unfold msgpack_encodable, len. apply andb_true_intro. split.
      - apply Z.leb_le. lia.
      - apply Z.ltb_lt.
        pose proof (filter_length_le (fun fn => negb (endswith fn _fs_transaction_suffix)
                      && negb (existsb (String.eqb fn) [_get_filename self _fs_count_file]))
                      (map fst (remove_all removed (files st)))) as H1.
        rewrite length_map in H1. pose proof (length_remove_all removed (files st)) as H2.
        unfold listed. lia. }
    assert (Ep : _prune_f self (S (S (S k))) st = _update_count_f self (S (S k)) None (Some len) st').
    { cbn [_prune_f]. apply Z.eqb_neq in Hth. rewrite Hth.
      unfold bind at 1. rewrite (file_count_record self k st c u Hc).
      cbv [py_gt_int ret]. apply Z.ltb_lt in Ht. rewrite Ht.
      unfold bind. cbn beta iota zeta delta [negb]. rewrite _list_dir_eq. cbv [time]. fold names. rewrite E.
      rewrite _list_dir_eq. reflexivity. }
    assert (Hrn : forall m, In m removed -> In m names)
      by (intros m; apply swept_incl).
    rewrite Ep.
    split; [|split].
    + rewrite update_count_value_ok by exact Hlen'. reflexivity.
    + intros m Hm Hmt.
      destruct (untouched_methods self m (Hcn m Hm) Hmt (S (S k))) as (_ & _ & Hu & _).
      destruct (Hu None (Some len) st') as (ds' & _ & _ & Lm & _). rewrite <- Lm.
      cbn [files st'].
      destruct (existsb (String.eqb m) removed) eqn:Ex.
      * apply lookup_remove_all_in. apply existsb_exists in Ex.
        destruct Ex as [m' [Hm' Eq]]. apply String.eqb_eq in Eq. subst m'. exact Hm'.
      * apply lookup_remove_all_notin. intros Hin.
        assert (existsb (String.eqb m) removed = true)
          by (apply existsb_exists; exists m; split; [exact Hin|apply String.eqb_refl]).
        congruence.
    + intros Hu0. subst u.
      assert (Hc' : forall g, lookup x (files st') = Some g -> undeletable g = false).
      { intros g. cbn [files st']. rewrite lookup_remove_all_notin.
        - rewrite Hc. intros Eg. injection Eg as <-. reflexivity.
        - intros Hin. exact (Hcn x (Hrn x Hin) eq_refl). }
      destruct (update_count_value self k len st' Hth Hlen' Hc') as [_ [u Hl]].
      cbn [_file_count_f]. unfold bind.
      rewrite (get_live self (S k) _fs_count_file _ 0 (OInt len) u Hl (or_introl eq_refl)).
      cbv [ret]. rewrite py_or_int_0. reflexivity.
Qed.

(** C5: the witness, on a directory of four entries over [threshold=3]:
    the expired entry "62" (key "b", expiry 50 at time 100) is gone after
    [_prune]. *)
Lemma prune_sweep_witness :
  distinct_names (map fst (files crowded_state)) = true /\
  lookup "62" (files (snd (_prune demo_cache crowded_state))) = None.
Proof.
  assert (H1 : distinct_names (map fst (files crowded_state)) = true) by (vm_compute; reflexivity).
  split; [exact H1|].
  assert (H2 : lookup (_get_filename demo_cache _fs_count_file) (files crowded_state) =
               Some (mkfile (record_blob demo_cache (OList [OInt 0; OInt 4])) false))
    by (vm_compute; reflexivity).
  assert (H3 : _threshold demo_cache <> 0%Z) by (vm_compute; discriminate).
  assert (H4 : (_threshold demo_cache < 4)%Z) by (vm_compute; reflexivity).
  assert (H5 : (Z.of_nat (length (files crowded_state)) < 2 ^ 64)%Z) by (vm_compute; reflexivity).
  destruct (proj2 (prune_sweep demo_cache crowded_state 4 false H1 H2) H3 H4 H5) as (_ & L & _).
  rewrite (L "62").
  - vm_compute. reflexivity.
  - vm_compute. right. left. reflexivity.
  - apply String.eqb_neq. vm_compute. reflexivity.
Defined.

(** C5: with [threshold=-1] the sweep runs: [set "b"] on [entry_state]
    removes the live entry of key "a" (position 0). And an entry whose
    expiry equals the current time, which [get] still returns, is removed
    by the sweep. *)
Lemma prune_sweep_counterexample :
  fst (get negative_cache "a" entry_state) = Ok (OInt 7) /\
  fst (set negative_cache "b" (OInt 2) None entry_state) = Ok true /\
  fst (get negative_cache "a" (snd (set negative_cache "b" (OInt 2) None entry_state))) = Ok ONone /\
  fst (get demo_cache "b" boundary_state) = Ok (OInt 8) /\
  lookup "62" (files (snd (_prune demo_cache boundary_state))) = None.
Proof. repeat split; vm_compute; reflexivity. Qed.

(** * Further properties of the code *)

(** Case analysis on every stuck [match] of the goal, innermost first. *)
Ltac case_matches :=
  repeat (simpl;
          repeat match goal with
                 | H : ?x = _ |- context [?x] => rewrite H
                 end;
          match goal with
          | |- context [match ?x with _ => _ end] =>
              lazymatch x with
              | context [match _ with _ => _ end] => fail
              | _ => let E := fresh "E" in destruct x eqn:E
              end
          end).

(** [has] runs the same reads and the same removal of a stale entry as
    [get]; it answers [false] exactly where [get] falls back to [None]. *)
Lemma has_get_f self n key st :
  snd (has_f self (S n) key st) = snd (get_f self (S n) key st) /\
  (exists b, fst (has_f self (S n) key st) = Ok b) /\
  (exists v, fst (get_f self (S n) key st) = Ok v) /\
  (fst (has_f self (S n) key st) = Ok false -> fst (get_f self (S n) key st) = Ok ONone).
Proof.
  cbn [has_f get_f].
  cbv [catch bind fs_read get_files ret raise time _deserialize unpack2 expired_lt
       andb orb negb].
  case_matches; repeat split; try (eexists; reflexivity); try reflexivity;
    try (intro Hf; discriminate Hf).
Qed.

Lemma has_live_f self n key st e v u :
  lookup (_get_filename self key) (files st) = Some (mkfile (record_blob self (OList [OInt e; v])) u) ->
  (e = 0%Z \/ clock st <= inject_Z e) ->
  has_f self (S n) key st = (Ok true, st).
Proof.
  intros Hl He. cbn [has_f]. cbv [catch bind fs_read get_files ret raise time].
  simpl. rewrite Hl. simpl. rewrite deserialize_record. simpl.
  replace (negb (e =? 0)%Z && negb (Qle_bool (clock st) (inject_Z e))) with false.
  - reflexivity.
  - destruct He as [He|He].
    + subst e. reflexivity.
    + apply Qle_bool_iff in He. rewrite He. destruct (e =? 0)%Z; reflexivity.
Qed.

(** [has] never raises, leaves the directory exactly as [get] leaves it (both
    remove a stale entry), and when [has] answers [False], [get] answers
    [None]. *)
Theorem has_get_agree self key st :
  snd (has self key st) = snd (get self key st) /\
  (exists b, fst (has self key st) = Ok b) /\
  (exists v, fst (get self key st) = Ok v) /\
  (fst (has self key st) = Ok false -> fst (get self key st) = Ok ONone).
Proof.
  unfold has, get, recursion_limit. generalize 99%nat. intros n. apply has_get_f.
Qed.

(** [get] and [has] change no file besides the key's own file, the counter
    file and the counter's temporary file, in any intermediate state. *)
Theorem get_has_untouched self key x :
  x <> _get_filename self key -> x <> _get_filename self _fs_count_file ->
  x <> (_get_filename self _fs_count_file ++ ".__tmp")%string ->
  frame eq x (get self key) /\ frame eq x (has self key).
Proof.
  intros H1 H2 H3.
  assert (Hg : frame eq x (get self key)).
  { destruct (untouched_methods self x H2 H3 recursion_limit) as (Hu & _).
    apply Hu. intros E. apply H1. symmetry. exact E. }
  split; [exact Hg|].
  intros st. destruct (Hg st) as (ds & T & F & L & C). exists ds.
  rewrite (proj1 (has_get_agree self key st)). auto.
Qed.

Lemma get_has_untouched_witness :
  "62" <> _get_filename demo_cache "a" /\
  frame eq "62" (get demo_cache "a") /\ frame eq "62" (has demo_cache "a").
Proof.
  assert (H1 : "62" <> _get_filename demo_cache "a") by (vm_compute; discriminate).
  split; [exact H1|].
  apply (get_has_untouched demo_cache "a" "62" H1); vm_compute; discriminate.
Defined.

(** A live entry (expiry 0 or not before the current time) makes [has]
    answer [True] and [get] return the stored value, even when that value is
    [None]; neither changes the state. *)
Theorem has_live_entry self key st e v u :
  lookup (_get_filename self key) (files st) = Some (mkfile (record_blob self (OList [OInt e; v])) u) ->
  (e = 0%Z \/ clock st <= inject_Z e) ->
  has self key st = (Ok true, st) /\ get self key st = (Ok v, st).
Proof.
  intros Hl He. unfold has, get, recursion_limit. generalize 99%nat. intros n.
  split; [exact (has_live_f self n key st e v u Hl He)|exact (get_live self n key st e v u Hl He)].
Qed.

Lemma has_live_entry_witness :
  has demo_cache "a" none_state = (Ok true, none_state) /\
  get demo_cache "a" none_state = (Ok ONone, none_state).
Proof.
  apply (has_live_entry demo_cache "a" none_state 0 ONone false).
  - vm_compute. reflexivity.
  - left. reflexivity.
Defined.



Lemma update_count_delta self m d c st :
  (d =? 0)%Z = false ->
  _file_count_f self m st = (Ok (OInt c), st) ->
  _update_count_f self (S m) (Some d) None st = _update_count_f self (S m) None (Some (c + d)%Z) st.
Proof.
  intros Hd Hf. cbn [_update_count_f]. destruct (_threshold self =? 0)%Z; [reflexivity|].
  rewrite Hd. unfold bind at 1 3. cbn beta. unfold bind at 1. rewrite Hf. reflexivity.
Qed.

Lemma file_count_missing self k st :
  lookup (_get_filename self _fs_count_file) (files st) = None ->
  _file_count_f self (S (S k)) st = (Ok (OInt 0), st).
Proof.
  intros Hl. cbn [_file_count_f]. unfold bind. rewrite (get_missing self k _ st Hl). reflexivity.
Qed.

Lemma fs_remove_ok n st f :
  lookup n (files st) = Some f -> undeletable f = false ->
  fs_remove n st = (Ok tt, mkstate (remove_name n (files st)) (clock st)
                                   (trace st ++ [remove_name n (files st)])).
Proof. intros Hl Hu. cbv [fs_remove bind get_files set_files]. rewrite Hl, Hu. reflexivity. Qed.

(** [delete] of a removable entry other than the counter, at any nesting
    depth that leaves room for the count update. *)
Lemma delete_entry_f self k key st f c :
  _threshold self <> 0%Z ->
  _get_filename self key <> _get_filename self _fs_count_file ->
  lookup (_get_filename self key) (files st) = Some f -> undeletable f = false ->
  lookup (_get_filename self _fs_count_file) (files st) =
    Some (mkfile (record_blob self (OList [OInt 0; OInt c])) false) ->
  msgpack_encodable (OInt (c - 1)) = true ->
  let st' := snd (delete_f self (S (S (S (S k)))) key false st) in
  fst (delete_f self (S (S (S (S k)))) key false st) = Ok true /\
  lookup (_get_filename self key) (files st') = None /\
  (exists u, lookup (_get_filename self _fs_count_file) (files st') =
             Some (mkfile (record_blob self (OList [OInt 0; OInt (c - 1)])) u)) /\
  (forall x, x <> _get_filename self key -> x <> _get_filename self _fs_count_file ->
     x <> (_get_filename self _fs_count_file ++ ".__tmp")%string ->
     lookup x (files st') = lookup x (files st)).
Proof.
  intros Hth Hk Hl Hu Hc Henc st'.
  set (fn := _get_filename self key) in *. set (cn := _get_filename self _fs_count_file) in *.
  set (st1 := mkstate (remove_name fn (files st)) (clock st) (trace st ++ [remove_name fn (files st)])).
  assert (Hc1 : lookup cn (files st1) = Some (mkfile (record_blob self (OList [OInt 0; OInt c])) false)).
  { cbn [files st1]. rewrite lookup_remove_name.
    destruct (String.eqb cn fn) eqn:E; [|exact Hc].
    apply String.eqb_eq in E. symmetry in E. contradiction. }
  assert (Hupd : _update_count_f self (S (S (S k))) (Some (-1)%Z) None st1 =
                 _update_count_f self (S (S (S k))) None (Some (c - 1)%Z) st1).
  { rewrite (update_count_delta self (S (S k)) (-1) c st1 eq_refl
               (file_count_record self k st1 c false Hc1)). reflexivity. }
  assert (Hx : forall g, lookup cn (files st1) = Some g -> undeletable g = false)
    by (intros g; rewrite Hc1; intros E; injection E as <-; reflexivity).
  destruct (update_count_value self (S k) (c - 1) st1 Hth Henc Hx) as [Hok [u Hu']].
  assert (Hfn : fn <> (cn ++ ".__tmp")%string)
    by (intro E; exact (filename_not_tmp self key _fs_count_file E)).
  assert (Hd : delete_f self (S (S (S (S k)))) key false st =
               (Ok true, snd (_update_count_f self (S (S (S k))) None (Some (c - 1)%Z) st1))).
  { cbn [delete_f]. unfold catch, bind at 1. fold fn. rewrite (fs_remove_ok fn st f Hl Hu). fold st1.
    cbv beta iota. unfold bind. rewrite Hupd.
    destruct (_update_count_f self (S (S (S k))) None (Some (c - 1)%Z) st1) as [r s] eqn:E.
    cbn [fst] in Hok. subst r. reflexivity. }
  unfold st'. rewrite Hd. cbn [fst snd].
  assert (Hkeep : forall x, x <> cn -> x <> (cn ++ ".__tmp")%string ->
            lookup x (files (snd (_update_count_f self (S (S (S k))) None (Some (c - 1)%Z) st1))) =
            lookup x (files st1)).
  { intros x H1 H2. destruct (untouched_methods self x H1 H2 (S (S (S k)))) as (_ & _ & Hu2 & _).
    destruct (Hu2 None (Some (c - 1)%Z) st1) as (ds & _ & _ & L & _). symmetry. exact L. }
  split; [reflexivity|]. split; [|split].
  - rewrite Hkeep by assumption. cbn [files st1]. rewrite lookup_remove_name, String.eqb_refl.
    reflexivity.
  - exists u. exact Hu'.
  - intros x H1 H2 H3. rewrite Hkeep by assumption. cbn [files st1]. rewrite lookup_remove_name.
    destruct (String.eqb x fn) eqn:E; [apply String.eqb_eq in E; contradiction|reflexivity].
Qed.

(** [delete] of a removable entry other than the counter returns [True],
    removes the entry, lowers the stored count by one (with no floor: a count
    of 0 becomes -1) and leaves every other file but the counter's temporary
    file as it is. *)
Theorem delete_entry self key st f c :
  _threshold self <> 0%Z ->
  _get_filename self key <> _get_filename self _fs_count_file ->
  lookup (_get_filename self key) (files st) = Some f -> undeletable f = false ->
  lookup (_get_filename self _fs_count_file) (files st) =
    Some (mkfile (record_blob self (OList [OInt 0; OInt c])) false) ->
  msgpack_encodable (OInt (c - 1)) = true ->
  fst (delete self key st) = Ok true /\
  lookup (_get_filename self key) (files (snd (delete self key st))) = None /\
  fst (_file_count self (snd (delete self key st))) = Ok (OInt (c - 1)) /\
  (forall x, x <> _get_filename self key -> x <> _get_filename self _fs_count_file ->
     x <> (_get_filename self _fs_count_file ++ ".__tmp")%string ->
     lookup x (files (snd (delete self key st))) = lookup x (files st)).
Proof.
  intros Hth Hk Hl Hu Hc Henc.
  unfold delete, _file_count, recursion_limit. generalize 96%nat. intros k.
  destruct (delete_entry_f self k key st f c Hth Hk Hl Hu Hc Henc) as (H1 & H2 & [u Hu'] & H4).
  split; [exact H1|]. split; [exact H2|]. split; [|exact H4].
  rewrite (file_count_record self (S (S k)) _ (c - 1) u Hu'). reflexivity.
Qed.

Lemma delete_entry_witness :
  fst (delete demo_cache "a" stray_state) = Ok true /\
  fst (_file_count demo_cache (snd (delete demo_cache "a" stray_state))) = Ok (OInt (-1)).
Proof.
  destruct (delete_entry demo_cache "a" stray_state (mkfile (Packed (OList [OInt 0; OInt 7])) false) 0)
    as (H1 & _ & H3 & _).
  - vm_compute. discriminate.
  - vm_compute. discriminate.
  - vm_compute. reflexivity.
  - reflexivity.
  - vm_compute. reflexivity.
  - vm_compute. reflexivity.
  - split; [exact H1|exact H3].
Defined.

(** [delete] returns [False] and changes nothing when the key has no file or
    when [os.remove] refuses to remove it. *)
Theorem delete_failure self key st :
  (lookup (_get_filename self key) (files st) = None \/
   exists f, lookup (_get_filename self key) (files st) = Some f /\ undeletable f = true) ->
  delete self key st = (Ok false, st).
Proof.
  intros H. unfold delete, recursion_limit. generalize 99%nat. intros k. cbn [delete_f].
  cbv [catch bind fs_remove get_files ret raise].
  destruct H as [H|(f & H & U)]; rewrite H; [|rewrite U]; reflexivity.
Qed.

Lemma delete_failure_witness :
  delete demo_cache "b" entry_state = (Ok false, entry_state).
Proof. apply delete_failure. left. vm_compute. reflexivity. Defined.

(** Deleting the key "__wz_cache_count", whose file is the counter, removes
    the counter and then writes it again with the count -1: [_file_count]
    reads 0 on the missing counter and adds -1. *)
Theorem delete_count_key self st f :
  _threshold self <> 0%Z ->
  lookup (_get_filename self _fs_count_file) (files st) = Some f -> undeletable f = false ->
  fst (delete self _fs_count_file st) = Ok true /\
  fst (_file_count self (snd (delete self _fs_count_file st))) = Ok (OInt (-1)).
Proof.
  intros Hth Hl Hu.
  unfold delete, _file_count, recursion_limit. generalize 96%nat. intros k.
  set (cn := _get_filename self _fs_count_file) in *.
  set (st1 := mkstate (remove_name cn (files st)) (clock st) (trace st ++ [remove_name cn (files st)])).
  assert (Hc1 : lookup cn (files st1) = None)
    by (cbn [files st1]; rewrite lookup_remove_name, String.eqb_refl; reflexivity).
  assert (Hupd : _update_count_f self (S (S (S k))) (Some (-1)%Z) None st1 =
                 _update_count_f self (S (S (S k))) None (Some (-1)%Z) st1).
  { rewrite (update_count_delta self (S (S k)) (-1) 0 st1 eq_refl
               (file_count_missing self k st1 Hc1)). reflexivity. }
  assert (Hx : forall g, lookup cn (files st1) = Some g -> undeletable g = false)
    by (intros g; rewrite Hc1; discriminate).
  destruct (update_count_value self (S k) (-1) st1 Hth eq_refl Hx) as [Hok [u Hu']].
  assert (Hd : delete_f self (S (S (S (S k)))) _fs_count_file false st =
               (Ok true, snd (_update_count_f self (S (S (S k))) None (Some (-1)%Z) st1))).
  { cbn [delete_f]. unfold catch, bind at 1. fold cn. rewrite (fs_remove_ok cn st f Hl Hu). fold st1.
    cbv beta iota. unfold bind. rewrite Hupd.
    destruct (_update_count_f self (S (S (S k))) None (Some (-1)%Z) st1) as [r s] eqn:E.
    cbn [fst] in Hok. subst r. reflexivity. }
  rewrite Hd. split; [reflexivity|]. cbn [snd].
  rewrite (file_count_record self (S (S k)) _ (-1) u Hu'). reflexivity.
Qed.

Lemma delete_count_key_witness :
  fst (delete demo_cache _fs_count_file entry_state) = Ok true /\
  fst (_file_count demo_cache (snd (delete demo_cache _fs_count_file entry_state))) = Ok (OInt (-1)).
Proof.
  apply (delete_count_key demo_cache entry_state (mkfile (Packed (OList [OInt 0; OInt 1])) false)).
  - vm_compute. discriminate.
  - vm_compute. reflexivity.
  - reflexivity.
Defined.

Lemma get_stale_eq self m key st e v u :
  lookup (_get_filename self key) (files st) = Some (mkfile (record_blob self (OList [OInt e; v])) u) ->
  e <> 0%Z -> inject_Z e < clock st ->
  get_f self (S m) key st = (Ok ONone, snd (delete_f self m key false st)) /\
  has_f self (S m) key st = (Ok false, snd (delete_f self m key false st)).
Proof.
  intros Hl He Hlt.
  assert (Hs : negb (e =? 0)%Z && negb (Qle_bool (clock st) (inject_Z e)) = true).
  { apply andb_true_intro. split; apply negb_true_iff.
    - apply Z.eqb_neq. exact He.
    - destruct (Qle_bool (clock st) (inject_Z e)) eqn:E; [|reflexivity].
      apply Qle_bool_iff in E. exfalso. apply (Qlt_not_le _ _ Hlt E). }
  cbn [get_f has_f]. cbv [catch bind fs_read get_files ret raise time].
  simpl. rewrite Hl. simpl. rewrite deserialize_record. simpl. rewrite Hs.
  destruct (delete_f self m key false st) as [[?|?] ?]; split; reflexivity.
Qed.

(** [get] and [has] of an entry whose expiry is non-zero and before the
    current time answer [None] and [False], remove the entry and lower the
    stored count by one. *)
Theorem expired_entry_removed self key st e v c :
  _threshold self <> 0%Z ->
  _get_filename self key <> _get_filename self _fs_count_file ->
  lookup (_get_filename self key) (files st) =
    Some (mkfile (record_blob self (OList [OInt e; v])) false) ->
  e <> 0%Z -> inject_Z e < clock st ->
  lookup (_get_filename self _fs_count_file) (files st) =
    Some (mkfile (record_blob self (OList [OInt 0; OInt c])) false) ->
  msgpack_encodable (OInt (c - 1)) = true ->
  fst (get self key st) = Ok ONone /\ has self key st = (Ok false, snd (get self key st)) /\
  lookup (_get_filename self key) (files (snd (get self key st))) = None /\
  fst (_file_count self (snd (get self key st))) = Ok (OInt (c - 1)).
Proof.
  intros Hth Hk Hl He Hlt Hc Henc.
  unfold get, has, _file_count, recursion_limit. generalize 95%nat. intros k.
  destruct (get_stale_eq self (S (S (S (S k)))) key st e v false Hl He Hlt) as [Eg Eh].
  rewrite Eg, Eh.
  destruct (delete_entry_f self k key st _ c Hth Hk Hl eq_refl Hc Henc) as (_ & H2 & [u Hu'] & _).
  split; [reflexivity|]. split; [reflexivity|]. split; [exact H2|].
  cbn [snd]. rewrite (file_count_record self (S (S (S k))) _ (c - 1) u Hu'). reflexivity.
Qed.

Lemma expired_entry_removed_witness :
  fst (get demo_cache "b" crowded_state) = Ok ONone /\
  fst (_file_count demo_cache (snd (get demo_cache "b" crowded_state))) = Ok (OInt 3).
Proof.
  destruct (expired_entry_removed demo_cache "b" crowded_state 50 (OInt 8) 4)
    as (H1 & _ & _ & H4).
  - vm_compute. discriminate.
  - vm_compute. discriminate.
  - vm_compute. reflexivity.
  - discriminate.
  - vm_compute. reflexivity.
  - vm_compute. reflexivity.
  - vm_compute. reflexivity.
  - split; [exact H1|exact H4].
Defined.

(** The [try] block of [set] reports whether the target was new. *)
Lemma set_try_block_new tmp x data st :
  tmp <> x -> (forall f, lookup x (files st) = Some f -> undeletable f = false) ->
  fst (set_try_block tmp x data st) =
    Ok (match lookup x (files st) with None => true | Some _ => false end).
Proof.
  intros Ht Hx.
  assert (Ex : String.eqb x tmp = false) by (apply String.eqb_neq; congruence).
  assert (Et : String.eqb tmp x = false) by (apply String.eqb_neq; congruence).
  set (u0 := match lookup tmp (files st) with Some f => undeletable f | None => false end).
  set (d1 := put tmp (mkfile Partial u0) (files st)).
  set (d2 := put tmp (mkfile data u0) d1).
  assert (L2x : lookup x d2 = lookup x (files st)) by (unfold d2, d1; rewrite !lookup_put, Ex; reflexivity).
  assert (L2t : lookup tmp d2 = Some (mkfile data u0)) by (unfold d2; rewrite lookup_put, String.eqb_refl; reflexivity).
  cbv [set_try_block fs_write_file fs_exists fs_remove fs_replace bind ret raise get_files set_files].
  simpl. fold u0 d1 d2.
  destruct (lookup x (files st)) as [[c u]|] eqn:Lx.
  - specialize (Hx _ eq_refl). simpl in Hx. subst u.
    repeat progress (simpl; rewrite ?L2x, ?L2t, ?Lx).
    rewrite !lookup_remove_name, Et, L2t, String.eqb_refl. reflexivity.
  - repeat progress (simpl; rewrite ?L2x, ?L2t, ?Lx). reflexivity.
Qed.

Lemma prune_noop self k st c u :
  lookup (_get_filename self _fs_count_file) (files st) =
    Some (mkfile (record_blob self (OList [OInt 0; OInt c])) u) ->
  (c <= _threshold self)%Z ->
  _prune_f self (S (S (S k))) st = (Ok tt, st).
Proof.
  intros Hc Ht. cbn [_prune_f]. destruct (_threshold self =? 0)%Z; [reflexivity|].
  unfold bind at 1. rewrite (file_count_record self k st c u Hc).
  cbv [py_gt_int ret]. apply Z.ltb_ge in Ht. rewrite Ht. reflexivity.
Qed.

(** When the count does not exceed the threshold (so no sweep runs), a
    successful [set] of a key other than the counter adds one to the stored
    count exactly when the key had no file before, and leaves the count as
    it was when it replaced an existing file. *)
Theorem set_count self key value timeout st c :
  _threshold self <> 0%Z ->
  _get_filename self key <> _get_filename self _fs_count_file ->
  lookup (_get_filename self _fs_count_file) (files st) =
    Some (mkfile (record_blob self (OList [OInt 0; OInt c])) false) ->
  (c <= _threshold self)%Z ->
  (forall f, lookup (_get_filename self key) (files st) = Some f -> undeletable f = false) ->
  msgpack_encodable (OList [OInt (normalized_expiry self timeout (clock st)); value]) = true ->
  msgpack_encodable (OInt (c + 1)) = true ->
  fst (set self key value timeout st) = Ok true /\
  fst (_file_count self (snd (set self key value timeout st))) =
    Ok (OInt (match lookup (_get_filename self key) (files st) with
              | None => c + 1 | Some _ => c end)).
Proof.
  intros Hth Hk Hc Hle Hx Henc Henc1.
  set (fn := _get_filename self key) in *. set (cn := _get_filename self _fs_count_file) in *.
  assert (Ht1 : (fn ++ ".__tmp")%string <> fn)
    by (intro E; symmetry in E; exact (filename_not_tmp self key key E)).
  assert (Ht2 : (fn ++ ".__tmp")%string <> cn)
    by (intro E; symmetry in E; exact (filename_not_tmp self _fs_count_file key E)).
  unfold set, _file_count, recursion_limit. generalize 96%nat. intros k.
  set (data := record_blob self (OList [OInt (normalized_expiry self timeout (clock st)); value])).
  set (st1 := snd (set_try_block (fn ++ ".__tmp") fn data st)).
  assert (Hb := set_try_block_new (fn ++ ".__tmp") fn data st Ht1 Hx).
  assert (Hc1 : lookup cn (files st1) =
                Some (mkfile (record_blob self (OList [OInt 0; OInt c])) false)).
  { destruct (frame_set_try_block_other eq eq_refl_of eq_trans_of cn (fn ++ ".__tmp") fn data
                Ht2 Hk st) as (ds & _ & _ & L & _).
    unfold st1. rewrite <- L. exact Hc. }
  assert (Hs : set_f self (S (S (S (S k)))) key value timeout false st =
               match lookup fn (files st) with
               | None => (match fst (_update_count_f self (S (S (S k))) (Some 1%Z) None st1) with
                          | Ok _ => Ok true | Exc e => Exc e end,
                          snd (_update_count_f self (S (S (S k))) (Some 1%Z) None st1))
               | Some _ => (Ok true, st1)
               end).
  { cbn [set_f]. cbv beta iota. unfold bind at 1.
    rewrite (prune_noop self k st c false Hc Hle). cbv beta iota.
    unfold bind at 1. rewrite normalize_timeout_eq. cbv beta iota.
    unfold bind at 1. rewrite serialize_eq. fold fn. rewrite Henc. cbv beta iota. fold data.
    unfold bind at 1. unfold attempt at 1.
    destruct (set_try_block (fn ++ ".__tmp") fn data st) as [r s] eqn:E.
    cbn [fst] in Hb. subst r. cbn [snd] in st1. subst st1.
    destruct (lookup fn (files st)); cbv beta iota delta [negb andb bind ret]; [reflexivity|].
    destruct (_update_count_f self (S (S (S k))) (Some 1%Z) None s) as [[?|?] ?];
      reflexivity. }
  rewrite Hs. destruct (lookup fn (files st)) as [g|] eqn:Lf.
  - split; [reflexivity|]. cbn [snd].
    rewrite (file_count_record self (S (S k)) st1 c false Hc1). reflexivity.
  - rewrite (update_count_delta self (S (S k)) 1 c st1 eq_refl (file_count_record self k st1 c false Hc1)).
    assert (Hx1 : forall g, lookup cn (files st1) = Some g -> undeletable g = false)
      by (intros g; rewrite Hc1; intros E; injection E as <-; reflexivity).
    destruct (update_count_value self (S k) (c + 1) st1 Hth Henc1 Hx1) as [Hok [u Hu]].
    rewrite Hok. split; [reflexivity|]. cbn [snd].
    rewrite (file_count_record self (S (S k)) _ (c + 1) u Hu). reflexivity.
Qed.

Lemma set_count_witness :
  fst (set demo_cache "b" (OInt 2) None entry_state) = Ok true /\
  fst (_file_count demo_cache (snd (set demo_cache "b" (OInt 2) None entry_state))) = Ok (OInt 2).
Proof.
  apply (set_count demo_cache "b" (OInt 2) None entry_state 1).
  - vm_compute. discriminate.
  - vm_compute. discriminate.
  - vm_compute. reflexivity.
  - vm_compute. discriminate.
  - intros f H. vm_compute in H. discriminate H.
  - vm_compute. reflexivity.
  - vm_compute. reflexivity.
Defined.

(** [__init__] with [threshold=0] does nothing; with any other threshold it
    writes as the count the number of entries [_list_dir] finds, provided
    the counter file can be replaced, and touches no other file than the
    counter and its temporary file. *)
Theorem init_count self st :
  (_threshold self = 0%Z -> __init__ self st = (Ok tt, st)) /\
  (_threshold self <> 0%Z ->
   (forall f, lookup (_get_filename self _fs_count_file) (files st) = Some f -> undeletable f = false) ->
   (Z.of_nat (length (files st)) < 2 ^ 64)%Z ->
   fst (__init__ self st) = Ok tt /\
   fst (_file_count self (snd (__init__ self st))) =
     Ok (OInt (Z.of_nat (length (listed self (map fst (files st)))))) /\
   (forall x, x <> _get_filename self _fs_count_file ->
      x <> (_get_filename self _fs_count_file ++ ".__tmp")%string ->
      lookup x (files (snd (__init__ self st))) = lookup x (files st))).
Proof.
  unfold __init__, __init___f, _file_count, recursion_limit. generalize 98%nat. intros k.
  split.
  - intros Ht. rewrite Ht. reflexivity.
  - intros Hth Hx Hlen. apply Z.eqb_neq in Hth as Hth'. rewrite Hth'. cbn [negb].
    apply Z.eqb_neq in Hth'.
    unfold bind. rewrite _list_dir_eq.
    set (len := Z.of_nat (length (listed self (map fst (files st))))).
    assert (Hlen' : msgpack_encodable (OInt len) = true).
    { unfold msgpack_encodable, len. apply andb_true_intro. split.
      - apply Z.leb_le. lia.
      - apply Z.ltb_lt.
        pose proof (filter_length_le (fun fn => negb (endswith fn _fs_transaction_suffix)
                      && negb (existsb (String.eqb fn) [_get_filename self _fs_count_file]))
                      (map fst (files st))) as H1.
        rewrite length_map in H1. unfold listed. lia. }
    destruct (update_count_value self k len st Hth' Hlen' Hx) as [Hok [u Hu]].
    split; [exact Hok|]. split.
    + rewrite (file_count_record self k _ len u Hu). reflexivity.
    + intros x H1 H2. destruct (untouched_methods self x H1 H2 (S (S k))) as (_ & _ & Hu2 & _).
      destruct (Hu2 None (Some len) st) as (ds & _ & _ & L & _). symmetry. exact L.
Qed.

Lemma init_count_witness :
  fst (__init__ demo_cache entry_state) = Ok tt /\
  fst (_file_count demo_cache (snd (__init__ demo_cache entry_state))) = Ok (OInt 1).
Proof.
  destruct (proj2 (init_count demo_cache entry_state)) as (H1 & H2 & _).
  - vm_compute. discriminate.
  - intros f H. vm_compute in H. injection H as <-. reflexivity.
  - vm_compute. reflexivity.
  - split; [exact H1|exact H2].
Defined.

Lemma qfloor_small y : 0 <= y -> y < 1 -> Qfloor y = 0%Z.
Proof.
  intros H0 H1. pose proof (Qfloor_le y) as A. pose proof (Qlt_floor y) as B.
  assert (C : inject_Z (Qfloor y) < inject_Z 1) by (unfold inject_Z at 2; lra).
  assert (D : inject_Z 0 < inject_Z (Qfloor y + 1)) by (unfold inject_Z at 1; lra).
  rewrite <- Zlt_Qlt in C, D. lia.
Qed.

Lemma qfloor_ge_1 y : 1 <= y -> (1 <= Qfloor y)%Z.
Proof.
  intros H. pose proof (Qlt_floor y) as B.
  assert (D : inject_Z 0 < inject_Z (Qfloor y)) by (unfold inject_Z at 1; rewrite inject_Z_plus in B; unfold inject_Z at 2 in B; lra).
  rewrite <- Zlt_Qlt in D. lia.
Qed.

(** [_normalize_timeout] with a non-zero timeout [t] truncates [time() + t]
    toward zero. So when [time() + t] lies strictly between -1 and 1, it
    yields the expiry 0, which marks an entry that never expires; and a
    negative [t] with [time() + t] outside that range (at a positive time)
    yields a non-zero expiry already before the current time. *)
Theorem normalize_timeout_edges self t st :
  ~ t == 0 ->
  ((-1 < clock st + t /\ clock st + t < 1) -> _normalize_timeout self (Some t) st = (Ok 0%Z, st)) /\
  (t < 0 -> 0 < clock st -> (clock st + t <= -1 \/ 1 <= clock st + t) ->
   exists e, _normalize_timeout self (Some t) st = (Ok e, st) /\ e <> 0%Z /\ inject_Z e < clock st).
Proof.
  intros Ht. rewrite normalize_timeout_eq. unfold normalized_expiry, base_normalize_timeout.
  assert (E : Qeq_bool t 0 = false)
    by (destruct (Qeq_bool t 0) eqn:E; [apply Qeq_bool_iff in E; contradiction|reflexivity]).
  rewrite E. unfold py_int. set (y := clock st + t). split.
  - intros [H1 H2]. destruct (Qle_bool 0 y) eqn:Ey.
    + apply Qle_bool_iff in Ey. rewrite (qfloor_small y Ey H2). reflexivity.
    + assert (Hy : ~ 0 <= y) by (intros Hy; apply Qle_bool_iff in Hy; congruence).
      apply Qnot_le_lt in Hy. rewrite (qfloor_small (- y)) by lra. reflexivity.
  - intros Hneg Hpos [H|H].
    + assert (Ey : Qle_bool 0 y = false)
        by (destruct (Qle_bool 0 y) eqn:Ey; [apply Qle_bool_iff in Ey; lra|reflexivity]).
      rewrite Ey. pose proof (qfloor_ge_1 (- y) ltac:(lra)) as F.
      eexists. split; [reflexivity|]. split; [lia|].
      assert (G : inject_Z (- Qfloor (- y)) < inject_Z 0) by (rewrite <- Zlt_Qlt; lia).
      unfold inject_Z at 2 in G. lra.
    + assert (Ey : Qle_bool 0 y = true) by (apply Qle_bool_iff; lra).
      rewrite Ey. pose proof (qfloor_ge_1 y H) as F. pose proof (Qfloor_le y) as A.
      eexists. split; [reflexivity|]. split; [lia|].
      assert (Yd : y == clock st + t) by (unfold y; reflexivity). lra.
Qed.

Lemma normalize_timeout_edges_witness :
  _normalize_timeout demo_cache (Some (-199 # 2)) (mkstate [] 100 []) = (Ok 0%Z, mkstate [] 100 []).
Proof.
  apply (proj1 (normalize_timeout_edges demo_cache (-199 # 2) (mkstate [] 100 []) ltac:(vm_compute; discriminate))).
  split; vm_compute; reflexivity.
Defined.

Lemma unhex_hex_digit n : (n < 16)%N -> unhex (hex_digit n) = n.
Proof.
  rewrite <- (Nnat.N2Nat.id n). generalize (N.to_nat n) as k. intros k Hk.
  do 16 (destruct k as [|k]; [reflexivity|]). lia.
Qed.

Lemma hexdigest_inj d1 : forall d2, hexdigest d1 = hexdigest d2 -> d1 = d2.
Proof.
  induction d1 as [|b1 d1 IH]; intros [|b2 d2] H; simpl in H; try discriminate; [reflexivity|].
  injection H as Ha Hb Hr.
  apply (f_equal unhex) in Ha, Hb.
  pose proof (Byte.to_N_bounded b1) as B1. pose proof (Byte.to_N_bounded b2) as B2.
  rewrite !unhex_hex_digit in Ha by (apply N.Div0.div_lt_upper_bound; lia).
  rewrite !unhex_hex_digit in Hb by (apply N.mod_lt; lia).
  assert (Hn : Byte.to_N b1 = Byte.to_N b2).
  { rewrite (N.Div0.div_mod (Byte.to_N b1) 16), (N.Div0.div_mod (Byte.to_N b2) 16).
    rewrite Ha, Hb. reflexivity. }
  assert (Hb12 : b1 = b2).
  { pose proof (Byte.of_to_N b1) as O1. rewrite Hn, Byte.of_to_N in O1. injection O1 as <-. reflexivity. }
  rewrite Hb12, (IH d2 Hr). reflexivity.
Qed.

(** Two keys share a file exactly when the hash method gives them the same
    digest: [hexdigest] loses nothing. *)
Theorem get_filename_same self k1 k2 :
  _get_filename self k1 = _get_filename self k2 <-> _hash_method self k1 = _hash_method self k2.
Proof.
  unfold _get_filename. split; [apply hexdigest_inj|intros ->; reflexivity].
Qed.

(** [add] never replaces a file: when the key's file exists, whatever it
    holds, [add] returns [False] and changes nothing. This holds also for an
    expired entry that is still on disk, for which [get] returns [None]. *)
Theorem add_existing_file self key value timeout st f :
  lookup (_get_filename self key) (files st) = Some f ->
  add self key value timeout st = (Ok false, st) /\
  (forall e v u, f = mkfile (record_blob self (OList [OInt e; v])) u ->
     e <> 0%Z -> inject_Z e < clock st -> fst (get self key st) = Ok ONone).
Proof.
  intros Hl. unfold add, get, recursion_limit. generalize 98%nat. intros k. split.
  - rewrite add_f_eq, Hl. reflexivity.
  - intros e v u -> He Hlt. exact (proj1 (get_stale self k key st e v u Hl He Hlt)).
Qed.

Lemma add_existing_file_witness :
  add demo_cache "b" (OInt 1) None crowded_state = (Ok false, crowded_state) /\
  fst (get demo_cache "b" crowded_state) = Ok ONone.
Proof.
  destruct (add_existing_file demo_cache "b" (OInt 1) None crowded_state
              (mkfile (Packed (OList [OInt 50; OInt 8])) false)) as [H1 H2].
  - vm_compute. reflexivity.
  - split; [exact H1|]. apply (H2 50%Z (OInt 8) false).
    + reflexivity.
    + discriminate.
    + vm_compute. reflexivity.
Defined.

(** After a successful [set] of a key other than the counter, [has] answers
    [True] at any time up to the stored expiry (at any time when the expiry
    is 0), whatever the value, [None] included, and changes nothing. *)
Theorem set_then_has self key value timeout st t' :
  _get_filename self key <> _get_filename self _fs_count_file ->
  fst (set self key value timeout st) = Ok true ->
  (normalized_expiry self timeout (clock st) = 0%Z \/
   t' <= inject_Z (normalized_expiry self timeout (clock st))) ->
  has self key (at_time (snd (set self key value timeout st)) t') =
  (Ok true, at_time (snd (set self key value timeout st)) t').
Proof.
  intros Hk Hok He. revert Hok. unfold set, has, recursion_limit.
  generalize 99%nat. intros n Hok.
  destruct (set_target self n key value timeout st Hk) as (ds & _ & _ & _ & O).
  destruct (O Hok) as [u Hl].
  revert Hl. generalize (snd (set_f self (S n) key value timeout false st)). intros X Hl.
  exact (has_live_f self n key (at_time X t') (normalized_expiry self timeout (clock st)) value u Hl He).
Qed.

Lemma set_then_has_witness :
  fst (set demo_cache "b" ONone None entry_state) = Ok true /\
  has demo_cache "b" (at_time (snd (set demo_cache "b" ONone None entry_state)) 400) =
  (Ok true, at_time (snd (set demo_cache "b" ONone None entry_state)) 400).
Proof.
  assert (H : fst (set demo_cache "b" ONone None entry_state) = Ok true) by (vm_compute; reflexivity).
  split; [exact H|].
  apply (set_then_has demo_cache "b" ONone None entry_state 400).
  - vm_compute. discriminate.
  - exact H.
  - right. vm_compute. discriminate.
Defined.

Lemma lookup_in_names m d : In m (map fst d) -> exists f, lookup m d = Some f.
Proof.
  induction d as [|[n g] d IH]; simpl; [contradiction|].
  intros [E|H].
  - subst n. rewrite String.eqb_refl. eauto.
  - destruct (String.eqb m n); eauto.
Qed.

Lemma in_listed_same self m d1 d2 :
  lookup m d1 = lookup m d2 ->
  In m (listed self (map fst d1)) -> In m (listed self (map fst d2)).
Proof.
  intros E. unfold listed. rewrite !filter_In. intros [H P]. split; [|exact P].
  destruct (lookup_in_names m d1 H) as [f L]. rewrite E in L. exact (in_names_lookup _ _ _ L).
Qed.

Lemma frame_prune_loop_notin self x now entries : forall idx nr,
  ~ In x entries -> frame eq x (prune_loop self now entries idx nr).
Proof.
  pose proof eq_refl_of as Hr. pose proof eq_trans_of as Ht.
  induction entries as [|fname rest IH]; intros idx nr Hx; cbn [prune_loop].
  - apply (frame_ret _ Hr Ht).
  - frame_walk Hr Ht.
    + apply (frame_fs_remove_other _ Hr Ht). intros E. apply Hx. left. exact E.
    + apply IH. intros H. apply Hx. right. exact H.
Qed.

Lemma frame_clear_loop_notin self x fuel fnames :
  x <> _get_filename self _fs_count_file ->
  x <> (_get_filename self _fs_count_file ++ ".__tmp")%string ->
  ~ In x fnames -> frame eq x (clear_loop self fuel fnames).
Proof.
  intros Hx1 Hx2. pose proof eq_refl_of as Hr. pose proof eq_trans_of as Ht.
  induction fnames as [|fname rest IH]; intros Hx; cbn [clear_loop].
  - frame_walk Hr Ht. apply (untouched_methods self x Hx1 Hx2 fuel).
  - frame_walk Hr Ht.
    + apply (frame_fs_remove_other _ Hr Ht). intros E. apply Hx. left. exact E.
    + apply IH. intros H. apply Hx. right. exact H.
    + apply (untouched_methods self x Hx1 Hx2 fuel).
Qed.

(** Neither the eviction sweep [_prune] nor [clear] changes a file that
    [_list_dir] does not list (a name ending in ".__wz_cache", for
    instance), apart from the counter file and its temporary file. *)
Theorem unlisted_files_kept self x st :
  ~ In x (listed self (map fst (files st))) ->
  x <> _get_filename self _fs_count_file ->
  x <> (_get_filename self _fs_count_file ++ ".__tmp")%string ->
  lookup x (files (snd (_prune self st))) = lookup x (files st) /\
  lookup x (files (snd (clear self st))) = lookup x (files st).
Proof.
  intros Hn Hx1 Hx2. split.
  - unfold _prune, recursion_limit. generalize 99%nat. intros n. cbn [_prune_f].
    destruct (_threshold self =? 0)%Z; [reflexivity|].
    destruct (untouched_methods self x Hx1 Hx2 n) as (_ & _ & Hu & Hc & _).
    unfold bind at 1. destruct (Hc st) as (ds1 & _ & _ & L1 & _).
    destruct (_file_count_f self n st) as [[cnt|e] st1] eqn:E1; cbn [snd] in L1; [|exact (eq_sym L1)].
    cbv beta iota. unfold bind at 1.
    destruct cnt; cbv [py_gt_int ret raise]; try exact (eq_sym L1).
    destruct (_threshold self <? z)%Z; cbn [negb]; [|exact (eq_sym L1)].
    unfold bind at 1. rewrite _list_dir_eq. cbv beta iota. unfold bind at 1. cbv [time].
    cbv beta iota. unfold bind at 1.
    assert (Hn1 : ~ In x (listed self (map fst (files st1))))
      by (intros H; apply Hn; exact (in_listed_same self x _ _ (eq_sym L1) H)).
    destruct (frame_prune_loop_notin self x (clock st1) _ 0 0 Hn1 st1) as (ds2 & _ & _ & L2 & _).
    destruct (prune_loop self (clock st1) (listed self (map fst (files st1))) 0 0 st1)
      as [[k|e] st2] eqn:E2; cbn [snd] in L2; [|cbn [snd]; congruence].
    cbv beta iota. unfold bind at 1. rewrite _list_dir_eq. cbv beta iota.
    destruct (Hu None (Some (Z.of_nat (length (listed self (map fst (files st2)))))) st2)
      as (ds3 & _ & _ & L3 & _).
    congruence.
  - unfold clear, recursion_limit. generalize 100%nat. intros n. unfold clear_f, bind at 1.
    rewrite _list_dir_eq. cbv beta iota.
    destruct (frame_clear_loop_notin self x n _ Hx1 Hx2 Hn st) as (ds & _ & _ & L & _).
    symmetry. exact L.
Qed.

Lemma unlisted_files_kept_witness :
  lookup "62.__wz_cache" (files (snd (_prune demo_cache pending_state))) =
    Some (mkfile (Packed (OList [OInt 50; OInt 8])) false) /\
  lookup "62.__wz_cache" (files (snd (clear demo_cache pending_state))) =
    Some (mkfile (Packed (OList [OInt 50; OInt 8])) false) /\
  lookup "62" (files (snd (_prune demo_cache pending_state))) = None.
Proof.
  destruct (unlisted_files_kept demo_cache "62.__wz_cache" pending_state) as [H1 H2].
  - vm_compute. intros H. repeat (destruct H as [H|H]; [discriminate H|]). exact H.
  - vm_compute. discriminate.
  - vm_compute. discriminate.
  - split; [rewrite H1; reflexivity|]. split; [rewrite H2; reflexivity|].
    vm_compute. reflexivity.
Defined.
